(** * pynq-z1-bsp helper scripts: a shallow embedding

    Two standalone Python scripts are modelled here:

    - [scripts/hexadecimal_array_generator.py], which prints the values of
      [range(start, final + step, step)] as split hexadecimal literals,
      followed by the length of the range;
    - [scripts/list-examples.py], which enumerates the entries of
      [examples/] and prints each entry's stem with a 1-based index.

    Python integers are unbounded and are modelled by [Z]; [str] values
    are modelled by [string]; standard output is a list of lines. *)

From Stdlib Require Import ZArith List String Ascii Bool Lia.
Import ListNotations.

Open Scope string_scope.
Open Scope Z_scope.

(** ** Python [str] operations used by the scripts *)

Module PyStr.

(** [s[i:j]] for [0 <= i <= j]; like Python's slicing, [substring]
    clamps to the end of the string instead of failing. *)
Definition slice (i j : nat) (s : string) : string :=
  substring i (j - i) s.

(** [c * n] for a one-character string [c]. *)
Fixpoint replicate (n : nat) (c : ascii) : string :=
  match n with
  | O => EmptyString
  | S n' => String c (replicate n' c)
  end.

(** Zero padding up to a minimal width (the [0] flag of a format
    specification, applied to the digits after the sign). *)
Definition zero_pad (width : nat) (s : string) : string :=
  replicate (width - length s) "0" ++ s.

Fixpoint forallb (p : ascii -> bool) (s : string) : bool :=
  match s with
  | EmptyString => true
  | String c s' => p c && forallb p s'
  end.

(** [s.rfind(c)]: the index of the last occurrence of [c], if any
    (Python returns [-1] for [None]). *)
Fixpoint rfind (c : ascii) (s : string) : option nat :=
  match s with
  | EmptyString => None
  | String a s' =>
      match rfind c s' with
      | Some i => Some (S i)
      | None => if Ascii.eqb a c then Some O else None
      end
  end.

End PyStr.

(** ** Integer formatting: [f"{n}"] and [f"{n:08X}"] *)

Module PyFormat.

(** The digit alphabet of [int.__format__] for the [X] presentation
    type; the decimal digits are its first ten characters. *)
Definition upper_digits : string := "0123456789ABCDEF".

(** The character of one digit; the programs only ask for remainders
    of a division by the base, which lie within the alphabet. *)
Definition digit_char (d : Z) : ascii :=
  match get (Z.to_nat d) upper_digits with
  | Some c => c
  | None => "F"%char
  end.

Fixpoint position_from (i : Z) (c : ascii) (s : string) : option Z :=
  match s with
  | EmptyString => None
  | String a s' => if Ascii.eqb a c then Some i else position_from (i + 1) c s'
  end.

(** The value of a digit character, as [int(s, base)] reads it
    (uppercase only: that is all the scripts print). *)
Definition digit_val (c : ascii) : option Z := position_from 0 c upper_digits.

(** Repeated division by the base, most significant digit first.  The
    loop runs once per digit; [fuel] bounds the number of digits. *)
Fixpoint to_digits (base : Z) (fuel : nat) (n : Z) (acc : string) : string :=
  match fuel with
  | O => acc
  | S fuel' =>
      let acc' := String (digit_char (n mod base)) acc in
      if n / base =? 0 then acc' else to_digits base fuel' (n / base) acc'
  end.

(** A number below [2 ^ fuel] has at most [fuel] digits in any base
    [>= 2]. *)
Definition digit_fuel (n : Z) : nat := S (Z.to_nat (Z.log2 n)).

(** The digits of a non-negative integer. *)
Definition digits (base : Z) (n : Z) : string :=
  to_digits base (digit_fuel n) n "".

(** [f"{n}"]: the decimal representation, with a sign when negative. *)
Definition str_int (n : Z) : string :=
  if n <? 0 then String "-" (digits 10 (- n)) else digits 10 n.

(** [f"{n:08X}"]: uppercase hexadecimal, zero padded to a minimal
    width of eight characters.  The padding is sign aware: the sign
    counts towards the width and the zeros follow it. *)
Definition format_08X (n : Z) : string :=
  if n <? 0
  then String "-" (PyStr.zero_pad 7 (digits 16 (- n)))
  else PyStr.zero_pad 8 (digits 16 n).

(** Reading a digit string back, as [int(s, base)] does for a string
    of digits: [None] when a character is not a digit of the base. *)
Fixpoint parse_from (base : Z) (acc : Z) (s : string) : option Z :=
  match s with
  | EmptyString => Some acc
  | String c s' =>
      match digit_val c with
      | Some d => if d <? base then parse_from base (acc * base + d) s' else None
      | None => None
      end
  end.

Definition parse (base : Z) (s : string) : option Z :=
  match s with
  | EmptyString => None
  | _ => parse_from base 0 s
  end.

End PyFormat.

(** ** Programs: standard output and exceptions *)

(** The exceptions the two scripts can raise: [range()] raises
    [ValueError] for a zero step and [int()] for a text that is no
    number, [len()] raises [OverflowError] for a length beyond
    [sys.maxsize], and [exit(code)] raises [SystemExit]. *)
Inductive exn : Type :=
| ValueError
| OverflowError
| SystemExit (code : Z).

(** A program threads the lines printed so far and either returns a
    value or stops at the first exception raised. *)
Definition Prog (A : Type) : Type :=
  list string -> list string * (exn + A).

Definition ret {A} (a : A) : Prog A := fun out => (out, inr a).

Definition raise {A} (e : exn) : Prog A := fun out => (out, inl e).

Definition bind {A B} (m : Prog A) (k : A -> Prog B) : Prog B :=
  fun out =>
    match m out with
    | (out', inr a) => k a out'
    | (out', inl e) => (out', inl e)
    end.

Notation "x <- m ;; k" := (bind m (fun x => k))
  (at level 61, m at next level, right associativity).
Notation "m ;; k" := (bind m (fun _ => k))
  (at level 61, right associativity).

(** [print(s)]: one more line on standard output. *)
Definition print (s : string) : Prog unit := fun out => ((out ++ [s])%list, inr tt).

(** [exit(code)]. *)
Definition exit (code : Z) : Prog unit := raise (SystemExit code).

(** [if c: body] with no [else]. *)
Definition when (c : bool) (body : Prog unit) : Prog unit :=
  if c then body else ret tt.

(** [for x in xs: body]. *)
Fixpoint for_each {A} (xs : list A) (body : A -> Prog unit) : Prog unit :=
  match xs with
  | [] => ret tt
  | x :: xs' => body x ;; for_each xs' body
  end.

(** What is observed of a finished process: its standard output and how
    it ended. *)
Record outcome : Type := {
  stdout : list string;
  ended : exn + unit
}.

Definition run (p : Prog unit) : outcome :=
  let (out, r) := p [] in {| stdout := out; ended := r |}.

(** The exit status of the interpreter: [0] after the last statement,
    the code of a [SystemExit], [1] for any other uncaught exception. *)
Definition exit_status (o : outcome) : Z :=
  match ended o with
  | inr _ => 0
  | inl (SystemExit code) => code
  | inl ValueError => 1
  | inl OverflowError => 1
  end.

(** ** The builtin [range] *)

Module PyRange.

Record range : Type := {
  start : Z;
  stop : Z;
  step : Z
}.

(** [range(start, stop, step)]: a zero step is refused. *)
Definition make (start stop step : Z) : Prog range :=
  if step =? 0 then raise ValueError
  else ret {| start := start; stop := stop; step := step |}.

(** The length of a range, computed from the bounds without
    iterating; the range object holds it as an unbounded integer. *)
Definition len (r : range) : Z :=
  let '(lo, hi, st) :=
    if 0 <? step r then (start r, stop r, step r)
    else (stop r, start r, - step r) in
  if hi <=? lo then 0 else (hi - lo - 1) / st + 1.

(** The range iterator holds the next value and the number of values
    left; each [next] yields the value and advances it by the step. *)
Fixpoint iterate (left : nat) (cur st : Z) : list Z :=
  match left with
  | O => []
  | S left' => cur :: iterate left' (cur + st) st
  end.

(** The values [for i in r] visits, in order. *)
Definition values (r : range) : list Z :=
  iterate (Z.to_nat (len r)) (start r) (step r).

(** The largest length the builtin [len] can report: [sys.maxsize] of
    a 64-bit build. *)
Definition sys_maxsize : Z := 2 ^ 63 - 1.

(** The builtin [len(r)]: the length of the range when it fits,
    [OverflowError] when it does not. *)
Definition builtin_len (r : range) : Prog Z :=
  if len r <=? sys_maxsize then ret (len r) else raise OverflowError.

End PyRange.

(** ** scripts/hexadecimal_array_generator.py *)

Module Generator.

Record ProgramArguments : Type := {
  start : Z;
  final : Z;
  step : Z
}.

(** The line printed for one value of the range. *)
Definition value_line (i : Z) : string :=
  let value := PyFormat.format_08X i in
  let left := PyStr.slice 0 4 value in
  let right := PyStr.slice 4 8 value in
  let value := left ++ "_" ++ right in
  "0x" ++ value ++ ",".

(** The body of [if __name__ == "__main__"], from the point where
    [ProgramArguments.get()] has returned the three parsed integers. *)
Definition main (arguments : ProgramArguments) : Prog unit :=
  array_range <- PyRange.make (start arguments)
                   (final arguments + step arguments) (step arguments) ;;
  for_each (PyRange.values array_range) (fun i => print (value_line i)) ;;
  count <- PyRange.builtin_len array_range ;;
  print (PyFormat.str_int count).

(** The range object [main] builds for non-zero steps. *)
Definition array_range (arguments : ProgramArguments) : PyRange.range :=
  {| PyRange.start := start arguments;
     PyRange.stop := final arguments + step arguments;
     PyRange.step := step arguments |}.

(** The value lines of a run: the lines printed before the count line.
    The count line is the last line of a run that ended normally; a run
    stopped by an exception has printed no count line, and all its
    lines are value lines. *)
Definition value_lines (o : outcome) : list string :=
  match ended o with
  | inr _ => removelast (stdout o)
  | inl _ => stdout o
  end.

(** The last line printed: the count line of a run that ended
    normally. *)
Definition count_line (o : outcome) : string := last (stdout o) "".

(** One position of the pattern [0x[0-9A-F]{4}_[0-9A-F]{4},]. *)
Inductive char_class : Type :=
| Lit (c : ascii)
| UpperHex.

Definition is_upper_hex (c : ascii) : bool :=
  match PyFormat.digit_val c with
  | Some _ => true
  | None => false
  end.

Definition class_accepts (k : char_class) (c : ascii) : bool :=
  match k with
  | Lit a => Ascii.eqb a c
  | UpperHex => is_upper_hex c
  end.

(** A full match of a string against a sequence of classes. *)
Fixpoint full_match (p : list char_class) (s : string) : bool :=
  match p, s with
  | [], EmptyString => true
  | k :: p', String c s' => class_accepts k c && full_match p' s'
  | _, _ => false
  end.

Definition line_pattern : list char_class :=
  [Lit "0"; Lit "x"; UpperHex; UpperHex; UpperHex; UpperHex; Lit "_";
   UpperHex; UpperHex; UpperHex; UpperHex; Lit ","]%char.

Definition matches_line_pattern (s : string) : bool :=
  full_match line_pattern s.

(** The number a value line shows: its eight digits read in base 16. *)
Definition shown_value (line : string) : option Z :=
  PyFormat.parse 16 (PyStr.slice 2 6 line ++ PyStr.slice 7 11 line).

End Generator.

(** ** scripts/list-examples.py *)

Module Lister.

(** A directory entry as [iterdir] yields it: the final component of
    the path, and whether the entry is a directory. *)
Record dir_entry : Type := {
  name : string;
  is_directory : bool
}.

(** What the file system holds at [examples/]. *)
Inductive node : Type :=
| Absent
| RegularFile
| Directory (entries : list dir_entry).

Record environment : Type := {
  cwd : string;
  examples : node
}.

(** [str(Path.cwd() / Path("examples/"))]: the trailing slash is
    dropped, and the root directory brings its own separator. *)
Definition path_examples (env : environment) : string :=
  if String.eqb (cwd env) "/" then "/examples"
  else cwd env ++ "/examples".

Definition path_exists (env : environment) : bool :=
  match examples env with
  | Absent => false
  | _ => true
  end.

Definition path_is_dir (env : environment) : bool :=
  match examples env with
  | Directory _ => true
  | _ => false
  end.

(** The entries in the order the file system yields them. *)
Definition iterdir (env : environment) : list dir_entry :=
  match examples env with
  | Directory entries => entries
  | _ => []
  end.

(** [PurePath.stem]: the final component without its last suffix.  A
    leading dot or a trailing dot does not start a suffix. *)
Definition stem (name : string) : string :=
  match PyStr.rfind "." name with
  | Some i =>
      if (0 <? i)%nat && (i <? length name - 1)%nat
      then PyStr.slice 0 i name
      else name
  | None => name
  end.

(** [enumerate(xs)], counting from [index]. *)
Fixpoint enumerate_from {A} (index : Z) (xs : list A) : list (Z * A) :=
  match xs with
  | [] => []
  | x :: xs' => (index, x) :: enumerate_from (index + 1) xs'
  end.

Definition enumerate {A} (xs : list A) : list (Z * A) := enumerate_from 0 xs.

Definition main (env : environment) : Prog unit :=
  when (negb (path_exists env))
    (print "Path to examples does not exist." ;;
     print (" - " ++ path_examples env) ;;
     exit 1) ;;
  when (negb (path_is_dir env))
    (print "Path to examples is not a directory." ;;
     print (" - " ++ path_examples env) ;;
     exit 1) ;;
  for_each (enumerate (iterdir env))
    (fun '(index, path) =>
       print (PyFormat.str_int (index + 1) ++ " " ++ stem (name path))).

(** The line the loop body prints for one pair of the enumeration. *)
Definition entry_line (p : Z * dir_entry) : string :=
  PyFormat.str_int (fst p + 1) ++ " " ++ stem (name (snd p)).

(** The name the specification words promise for an entry: the stem
    for a file, the unmodified name for a directory. *)
Definition promised_name (e : dir_entry) : string :=
  if is_directory e then name e else stem (name e).

End Lister.

(** ** The builtin [int(text, base)] *)

Module PyInt.

(** A text is held as the bytes of its UTF-8 encoding.  The builtin
    works in two stages: text with a character outside ASCII is first
    rewritten into an ASCII buffer, its Unicode decimal digits and
    white space mapped to ASCII ones; the buffer is then parsed. *)

Definition byte (c : ascii) : Z := Z.of_nat (nat_of_ascii c).

Definition ascii_char (c : ascii) : bool := byte c <? 128.

Definition is_ascii_text (s : string) : bool := PyStr.forallb ascii_char s.

Definition continuation (c : ascii) : bool :=
  (128 <=? byte c) && (byte c <=? 191).

(** The code point that a multi-byte UTF-8 sequence at the head of
    [s] encodes, and the text after it; [None] when the bytes are no
    such sequence (the interpreter holds such bytes as lone
    surrogates). *)
Definition decode (s : string) : option (Z * string) :=
  match s with
  | String b0 (String b1 r1) =>
      if (194 <=? byte b0) && (byte b0 <=? 223) && continuation b1
      then Some ((byte b0 - 192) * 64 + (byte b1 - 128), r1)
      else
        match r1 with
        | String b2 r2 =>
            if (224 <=? byte b0) && (byte b0 <=? 239)
               && continuation b1 && continuation b2
            then
              let cp := (byte b0 - 224) * 4096 + (byte b1 - 128) * 64
                        + (byte b2 - 128) in
              if (2048 <=? cp) && negb ((55296 <=? cp) && (cp <=? 57343))
              then Some (cp, r2) else None
            else
              match r2 with
              | String b3 r3 =>
                  if (240 <=? byte b0) && (byte b0 <=? 244)
                     && continuation b1 && continuation b2 && continuation b3
                  then
                    let cp := (byte b0 - 240) * 262144
                              + (byte b1 - 128) * 4096
                              + (byte b2 - 128) * 64 + (byte b3 - 128) in
                    if (65536 <=? cp) && (cp <=? 1114111)
                    then Some (cp, r3) else None
                  else None
              | EmptyString => None
              end
        | EmptyString => None
        end
  | _ => None
  end.

(** The white space outside ASCII. *)
Definition unicode_spaces : list Z :=
  [133; 160; 5760; 8192; 8193; 8194; 8195; 8196; 8197; 8198; 8199; 8200;
   8201; 8202; 8232; 8233; 8239; 8287; 12288].

(** The code points of the digit zero of each script with decimal
    digits (Unicode 14.0, the database of Python 3.11); the digits one
    to nine of a script follow its zero. *)
Definition decimal_zeros : list Z :=
  [1632; 1776; 1984; 2406; 2534; 2662; 2790; 2918; 3046; 3174; 3302; 3430;
   3558; 3664; 3792; 3872; 4160; 4240; 6112; 6160; 6470; 6608; 6784; 6800;
   6992; 7088; 7232; 7248; 42528; 43216; 43264; 43472; 43504; 43600; 44016;
   65296; 66720; 68912; 69734; 69872; 69942; 70096; 70384; 70736; 70864;
   71248; 71360; 71472; 71904; 72016; 72784; 73040; 73120; 92768; 92864;
   93008; 120782; 120792; 120802; 120812; 120822; 123200; 123632; 125264;
   130032].

Definition unicode_decimal (cp : Z) : option Z :=
  match find (fun zero => (zero <=? cp) && (cp <=? zero + 9)) decimal_zeros with
  | Some zero => Some (cp - zero)
  | None => None
  end.

(** The rewriting of text that is not all ASCII: characters below 127
    are kept, white space becomes a space, a decimal digit its ASCII
    digit; at any other character the buffer ends with a question
    mark.  Each step consumes at least one byte, so [fuel] is the
    length of the text. *)
Fixpoint to_ascii_from (fuel : nat) (s : string) : string :=
  match fuel with
  | O => EmptyString
  | S fuel' =>
      match s with
      | EmptyString => EmptyString
      | String c s' =>
          if byte c <? 127 then String c (to_ascii_from fuel' s')
          else
            match decode s with
            | Some (cp, rest) =>
                if existsb (Z.eqb cp) unicode_spaces
                then String " " (to_ascii_from fuel' rest)
                else
                  match unicode_decimal cp with
                  | Some d =>
                      String (ascii_of_nat (48 + Z.to_nat d))
                             (to_ascii_from fuel' rest)
                  | None => "?"
                  end
            | None => "?"
            end
      end
  end.

(** The ASCII buffer of a text: ASCII text is its own buffer. *)
Definition to_ascii (text : string) : string :=
  if is_ascii_text text then text else to_ascii_from (length text) text.

(** *** Parsing the ASCII buffer *)

(** The white space the parser skips: tab, line feed, vertical tab,
    form feed, carriage return and space. *)
Definition is_space (c : ascii) : bool :=
  let n := nat_of_ascii c in
  ((9 <=? n) && (n <=? 13) || (n =? 32))%nat.

(** The value of a digit character: letters count from ten, in either
    case; characters that are no digit have no value. *)
Definition digit_value (c : ascii) : option Z :=
  let n := Z.of_nat (nat_of_ascii c) in
  if (48 <=? n) && (n <=? 57) then Some (n - 48)
  else if (97 <=? n) && (n <=? 122) then Some (n - 87)
  else if (65 <=? n) && (n <=? 90) then Some (n - 55)
  else None.

Fixpoint skip_spaces (s : string) : string :=
  match s with
  | EmptyString => s
  | String c s' => if is_space c then skip_spaces s' else s
  end.

(** The scan over digits and underscores.  It stops at the first
    character that is neither; two underscores in a row, or an
    underscore at the end of the scan, are refused.  The result is the
    value read, the number of digits, and the text left. *)
Fixpoint scan_digits (base : Z) (prev_underscore : bool) (acc : Z)
    (count : nat) (s : string) : option (Z * nat * string) :=
  let stop := if prev_underscore then None else Some (acc, count, s) in
  match s with
  | EmptyString => stop
  | String c s' =>
      if Ascii.eqb c "_" then
        if prev_underscore then None
        else scan_digits base true acc count s'
      else
        match digit_value c with
        | Some d =>
            if d <? base
            then scan_digits base false (acc * base + d) (S count) s'
            else stop
        | None => stop
        end
  end.

(** The default limit on the number of digits of a conversion in a
    base that is no power of two. *)
Definition max_str_digits : nat := 4300.

(** The base prefix, [0x] or [0X] for base 16, with one underscore
    allowed after it. *)
Definition strip_prefix (base : Z) (s : string) : string :=
  match s with
  | String c0 (String c1 s') =>
      if (base =? 16) && Ascii.eqb c0 "0"
         && (Ascii.eqb c1 "x" || Ascii.eqb c1 "X")
      then match s' with
           | String c2 s'' => if Ascii.eqb c2 "_" then s'' else s'
           | EmptyString => s'
           end
      else s
  | _ => s
  end.

(** What follows the sign: the prefix, then at least one digit, then
    white space only. *)
Definition parse_unsigned (s : string) (base : Z) : option Z :=
  let s := strip_prefix base s in
  match s with
  | String c _ => if Ascii.eqb c "_" then None else
      match scan_digits base false 0 0 s with
      | Some (v, count, rest) =>
          if (count =? 0)%nat then None
          else if negb (base =? 16) && (max_str_digits <? count)%nat then None
          else match skip_spaces rest with
               | EmptyString => Some v
               | String _ _ => None
               end
      | None => None
      end
  | EmptyString => None
  end.

(** The parse of the buffer, for the bases the script uses, 16 and
    10: [None] stands for [ValueError]. *)
Definition parse_buffer (buffer : string) (base : Z) : option Z :=
  match skip_spaces buffer with
  | String c s' =>
      if Ascii.eqb c "+" then parse_unsigned s' base
      else if Ascii.eqb c "-" then option_map Z.opp (parse_unsigned s' base)
      else parse_unsigned (String c s') base
  | EmptyString => None
  end.

(** The conversion of a text. *)
Definition parse (text : string) (base : Z) : option Z :=
  parse_buffer (to_ascii text) base.

(** [int(text, base)]. *)
Definition int (text : string) (base : Z) : Prog Z :=
  match parse text base with
  | Some v => ret v
  | None => raise ValueError
  end.

End PyInt.

(** ** [ProgramArguments.get] and the generator script after [parse_args] *)

Module Cli.

(** [ProgramArguments.get], from the point where [parse_args] has
    returned the texts of the three positional arguments: [start] and
    [final] are read in base 16, [step] in base 10. *)
Definition get (start_text final_text step_text : string)
  : Prog Generator.ProgramArguments :=
  start <- PyInt.int start_text 16 ;;
  final <- PyInt.int final_text 16 ;;
  step <- PyInt.int step_text 10 ;;
  ret {| Generator.start := start;
         Generator.final := final;
         Generator.step := step |}.

(** The script from the point where [parse_args] has returned the
    texts of the three positional arguments (what the argument parser
    does before that, its help and usage exits, is not part of this
    model): read the arguments, then print. *)
Definition after_parse_args (start_text final_text step_text : string)
  : Prog unit :=
  arguments <- get start_text final_text step_text ;;
  Generator.main arguments.

End Cli.

(** ** Sanity checks of the model on concrete inputs *)

Example format_08X_16 : PyFormat.format_08X 16 = "00000010".
Proof. reflexivity. Qed.

Example format_08X_neg1 : PyFormat.format_08X (-1) = "-0000001".
Proof. reflexivity. Qed.

Example format_08X_wide : PyFormat.format_08X (2 ^ 32 + 5) = "100000005".
Proof. reflexivity. Qed.

Example str_int_120 : PyFormat.str_int 120 = "120".
Proof. reflexivity. Qed.

Example int_fullwidth_one :
  PyInt.parse (String (ascii_of_nat 239) (String (ascii_of_nat 188)
                 (String (ascii_of_nat 145) ""))) 16 = Some 1.
Proof. reflexivity. Qed.

Example int_hex_prefix : PyInt.parse " -0x_1f " 16 = Some (-31).
Proof. reflexivity. Qed.

Example generator_0_5_2 :
  stdout (run (Generator.main {| Generator.start := 0; Generator.final := 5;
                                 Generator.step := 2 |}))
  = ["0x0000_0000,"; "0x0000_0002,"; "0x0000_0004,"; "0x0000_0006,"; "4"].
Proof. reflexivity. Qed.

Example lister_two_entries :
  stdout (run (Lister.main
     {| Lister.cwd := "/home/user/bsp";
        Lister.examples := Lister.Directory
          [ {| Lister.name := "blinky.rs"; Lister.is_directory := false |};
            {| Lister.name := "v1.0"; Lister.is_directory := true |} ] |}))
  = ["1 blinky"; "2 v1"].
Proof. reflexivity. Qed.

(** ** Running programs *)

Section ProgLemmas.

Lemma for_each_print {A} (f : A -> string) (xs : list A) (out : list string) :
  for_each xs (fun x => print (f x)) out = ((out ++ map f xs)%list, inr tt).
Proof.
  revert out; induction xs as [|x xs IH]; intros out; simpl.
  - unfold ret. now rewrite app_nil_r.
  - unfold bind at 1. unfold print at 1. rewrite IH.
    now rewrite <- app_assoc.
Qed.

End ProgLemmas.

(** ** The builtin [range]: length and contents *)

Module PyRangeFacts.
Import PyRange.

Lemma len_nonneg (r : range) : 0 <= len r.
Proof.
  unfold len.
  destruct (0 <? step r) eqn:Hs.
  - apply Z.ltb_lt in Hs.
    destruct (stop r <=? start r) eqn:Hc; [lia|].
    apply Z.leb_gt in Hc.
    assert (0 <= (stop r - start r - 1) / step r)
      by (apply Z.div_pos; lia).
    lia.
  - apply Z.ltb_ge in Hs.
    destruct (start r <=? stop r) eqn:Hc; [lia|].
    apply Z.leb_gt in Hc.
    destruct (Z.eq_dec (step r) 0) as [E|E].
    + rewrite E. simpl. rewrite Z.div_0_r. lia.
    + assert (0 <= (start r - stop r - 1) / - step r)
        by (apply Z.div_pos; lia).
      lia.
Qed.

Lemma iterate_length (n : nat) (cur st : Z) :
  List.length (iterate n cur st) = n.
Proof.
  revert cur; induction n as [|n IH]; intros cur; simpl; [|rewrite IH]; reflexivity.
Qed.

Lemma iterate_snoc (n : nat) (cur st : Z) :
  iterate (S n) cur st
  = (iterate n cur st ++ [cur + Z.of_nat n * st])%list.
Proof.
  revert cur; induction n as [|n IH]; intros cur.
  - simpl. f_equal. lia.
  - change (iterate (S (S n)) cur st)
      with (cur :: iterate (S n) (cur + st) st).
    rewrite IH. cbn [iterate app]. do 3 f_equal. lia.
Qed.

Lemma iterate_nth (n i : nat) (cur st : Z) :
  (i < n)%nat ->
  nth_error (iterate n cur st) i = Some (cur + Z.of_nat i * st).
Proof.
  revert cur i; induction n as [|n IH]; intros cur i Hi; [lia|].
  destruct i as [|i]; cbn [iterate nth_error].
  - f_equal. lia.
  - rewrite IH by lia. f_equal. lia.
Qed.

Lemma values_length (r : range) :
  Z.of_nat (List.length (values r)) = len r.
Proof.
  unfold values. rewrite iterate_length.
  apply Z2Nat.id, len_nonneg.
Qed.

(** The length of an upward range. *)
Lemma len_up (r : range) :
  0 < step r -> start r < stop r ->
  len r = (stop r - start r - 1) / step r + 1.
Proof.
  intros Hs Hlt. unfold len.
  replace (0 <? step r) with true by (symmetry; apply Z.ltb_lt; lia).
  replace (stop r <=? start r) with false by (symmetry; apply Z.leb_gt; lia).
  reflexivity.
Qed.

Lemma len_down (r : range) :
  step r < 0 -> stop r < start r ->
  len r = (start r - stop r - 1) / (- step r) + 1.
Proof.
  intros Hs Hlt. unfold len.
  replace (0 <? step r) with false by (symmetry; apply Z.ltb_ge; lia).
  replace (start r <=? stop r) with false by (symmetry; apply Z.leb_gt; lia).
  reflexivity.
Qed.

Lemma len_empty_up (r : range) :
  0 < step r -> stop r <= start r -> len r = 0.
Proof.
  intros Hs Hle. unfold len.
  replace (0 <? step r) with true by (symmetry; apply Z.ltb_lt; lia).
  replace (stop r <=? start r) with true by (symmetry; apply Z.leb_le; lia).
  reflexivity.
Qed.

Lemma len_empty_down (r : range) :
  step r < 0 -> start r <= stop r -> len r = 0.
Proof.
  intros Hs Hle. unfold len.
  replace (0 <? step r) with false by (symmetry; apply Z.ltb_ge; lia).
  replace (start r <=? stop r) with true by (symmetry; apply Z.leb_le; lia).
  reflexivity.
Qed.

(** The documented contents of a range: [r[i] = start + step * i] for
    the indices [i >= 0] that keep [r[i]] on the near side of [stop]. *)
Lemma values_spec (r : range) (v : Z) :
  step r <> 0 ->
  In v (values r) <->
  exists i, 0 <= i /\ v = start r + i * step r /\
            (if 0 <? step r then v < stop r else stop r < v).
Proof.
  intros Hnz. unfold values.
  assert (Hin : forall n, In v (iterate n (start r) (step r)) <->
            exists i, 0 <= i < Z.of_nat n /\ v = start r + i * step r).
  { induction n as [|n IH].
    - simpl. split; [tauto|]. intros (i & Hi & _). lia.
    - rewrite iterate_snoc, in_app_iff, IH. simpl. split.
      + intros [(i & Hi & Hv)|[Hv|[]]].
        * exists i. split; [lia|assumption].
        * exists (Z.of_nat n). split; [lia|now symmetry].
      + intros (i & Hi & Hv).
        destruct (Z.eq_dec i (Z.of_nat n)) as [->|Hne].
        * right. left. now symmetry.
        * left. exists i. split; [lia|assumption]. }
  rewrite Hin, (Z2Nat.id _ (len_nonneg r)). clear Hin.
  destruct (0 <? step r) eqn:Hs.
  - apply Z.ltb_lt in Hs.
    destruct (Z_lt_le_dec (start r) (stop r)) as [Hlt|Hge].
    + rewrite (len_up r Hs Hlt).
      pose proof (Z.div_mod (stop r - start r - 1) (step r) Hnz) as Hdm.
      pose proof (Z.mod_pos_bound (stop r - start r - 1) (step r) Hs) as Hmb.
      split; intros (i & Hi & Hv); exists i.
      * repeat split; try lia. subst v. nia.
      * destruct Hv as [Hv Hb]. subst v. split; [|reflexivity].
        split; [lia|]. nia.
    + rewrite (len_empty_up r Hs Hge).
      split; intros (i & Hi & Hv); [lia|].
      destruct Hv as [Hv Hb]. subst v. nia.
  - apply Z.ltb_ge in Hs. assert (Hneg : step r < 0) by lia.
    destruct (Z_lt_le_dec (stop r) (start r)) as [Hlt|Hge].
    + rewrite (len_down r Hneg Hlt).
      assert (Hnz' : - step r <> 0) by lia.
      pose proof (Z.div_mod (start r - stop r - 1) (- step r) Hnz') as Hdm.
      assert (Hpos : 0 < - step r) by lia.
      pose proof (Z.mod_pos_bound (start r - stop r - 1) (- step r) Hpos) as Hmb.
      split; intros (i & Hi & Hv); exists i.
      * repeat split; try lia. subst v. nia.
      * destruct Hv as [Hv Hb]. subst v. split; [|reflexivity].
        split; [lia|]. nia.
    + rewrite (len_empty_down r Hneg Hge).
      split; intros (i & Hi & Hv); [lia|].
      destruct Hv as [Hv Hb]. subst v. nia.
Qed.

(** A non-empty range ends with its last value. *)
Lemma values_end (r : range) :
  0 < len r ->
  exists front, values r = (front ++ [start r + (len r - 1) * step r])%list.
Proof.
  intros Hlen. unfold values.
  replace (Z.to_nat (len r)) with (S (Z.to_nat (len r - 1))) by lia.
  rewrite iterate_snoc, Z2Nat.id by lia. now eexists.
Qed.

End PyRangeFacts.

(** ** The generator: what a run prints *)

Module GeneratorFacts.
Import Generator.

(** With a non-zero step and a length that [len] can report, the run
    prints one line per value of the range, then the length of the
    range, and ends normally. *)
Lemma run_main (a : ProgramArguments) :
  step a <> 0 ->
  PyRange.len (array_range a) <= PyRange.sys_maxsize ->
  run (main a)
  = {| stdout := (map value_line (PyRange.values (array_range a))
                  ++ [PyFormat.str_int (PyRange.len (array_range a))])%list;
       ended := inr tt |}.
Proof.
  intros Hnz Hmax. unfold run, main, PyRange.make, PyRange.builtin_len.
  replace (step a =? 0) with false by (symmetry; now apply Z.eqb_neq).
  unfold bind at 1. unfold ret at 1.
  unfold bind at 1. rewrite for_each_print.
  fold (array_range a).
  replace (PyRange.len (array_range a) <=? PyRange.sys_maxsize) with true
    by (symmetry; now apply Z.leb_le).
  reflexivity.
Qed.

(** With a non-zero step and a longer range, the run prints one line
    per value of the range and is then stopped by [len]. *)
Lemma run_main_overflow (a : ProgramArguments) :
  step a <> 0 ->
  PyRange.sys_maxsize < PyRange.len (array_range a) ->
  run (main a)
  = {| stdout := map value_line (PyRange.values (array_range a));
       ended := inl OverflowError |}.
Proof.
  intros Hnz Hmax. unfold run, main, PyRange.make, PyRange.builtin_len.
  replace (step a =? 0) with false by (symmetry; now apply Z.eqb_neq).
  unfold bind at 1. unfold ret at 1.
  unfold bind at 1. rewrite for_each_print.
  fold (array_range a).
  replace (PyRange.len (array_range a) <=? PyRange.sys_maxsize) with false
    by (symmetry; now apply Z.leb_gt).
  reflexivity.
Qed.

(** With a zero step [range] raises before anything is printed. *)
Lemma run_main_zero_step (a : ProgramArguments) :
  step a = 0 ->
  run (main a) = {| stdout := []; ended := inl ValueError |}.
Proof.
  intros Hz. unfold run, main, PyRange.make.
  rewrite Hz. reflexivity.
Qed.

Lemma value_lines_main (a : ProgramArguments) :
  step a <> 0 ->
  value_lines (run (main a))
  = map value_line (PyRange.values (array_range a)).
Proof.
  intros Hnz. unfold value_lines.
  destruct (Z_le_gt_dec (PyRange.len (array_range a)) PyRange.sys_maxsize)
    as [Hmax|Hmax].
  - rewrite (run_main a Hnz Hmax). cbn [stdout ended].
    apply removelast_last.
  - rewrite (run_main_overflow a Hnz ltac:(lia)). reflexivity.
Qed.

Lemma count_line_main (a : ProgramArguments) :
  step a <> 0 ->
  PyRange.len (array_range a) <= PyRange.sys_maxsize ->
  count_line (run (main a)) = PyFormat.str_int (PyRange.len (array_range a)).
Proof.
  intros Hnz Hmax. unfold count_line. rewrite (run_main a Hnz Hmax).
  cbn [stdout]. apply last_last.
Qed.

Lemma value_lines_count (a : ProgramArguments) :
  step a <> 0 ->
  Z.of_nat (List.length (value_lines (run (main a))))
  = PyRange.len (array_range a).
Proof.
  intros Hnz. rewrite (value_lines_main a Hnz), length_map.
  apply PyRangeFacts.values_length.
Qed.

(** Rounding up a quotient: one more than rounding down unless the
    division is exact. *)
Lemma div_round_up (d s : Z) :
  0 < s ->
  (d + s - 1) / s = d / s + (if d mod s =? 0 then 0 else 1).
Proof.
  intros Hs.
  pose proof (Z.div_mod d s ltac:(lia)) as Hdm.
  pose proof (Z.mod_pos_bound d s Hs) as Hmb.
  destruct (d mod s =? 0) eqn:Hm.
  - apply Z.eqb_eq in Hm. symmetry.
    apply (Z.div_unique_pos _ _ _ (s - 1)); lia.
  - apply Z.eqb_neq in Hm. symmetry.
    apply (Z.div_unique_pos _ _ _ (d mod s - 1)); lia.
Qed.

(** The length of the range of an upward run. *)
Lemma len_array_range_up (a : ProgramArguments) :
  start a <= final a -> 0 < step a ->
  PyRange.len (array_range a)
  = (final a - start a) / step a + 1
    + (if (final a - start a) mod step a =? 0 then 0 else 1).
Proof.
  intros Hle Hs.
  rewrite PyRangeFacts.len_up by (cbn; lia). cbn.
  replace (final a + step a - start a - 1)
    with ((final a - start a) + step a - 1) by lia.
  rewrite (div_round_up _ _ Hs). lia.
Qed.

(** The length of the range when [final] is [k] steps away from
    [start], in the direction of the step. *)
Lemma len_array_range_exact (a : ProgramArguments) (k : Z) :
  step a <> 0 -> 0 <= k -> final a - start a = k * step a ->
  PyRange.len (array_range a) = k + 1.
Proof.
  intros Hnz Hk Hd.
  destruct (Z_lt_le_dec 0 (step a)) as [Hs|Hs].
  - rewrite PyRangeFacts.len_up by (cbn; nia). cbn.
    replace (final a + step a - start a - 1)
      with (k * step a + (step a - 1)) by lia.
    rewrite Z.div_add_l by lia.
    rewrite Z.div_small by lia. lia.
  - assert (Hneg : step a < 0) by lia.
    rewrite PyRangeFacts.len_down by (cbn; nia). cbn.
    replace (start a - (final a + step a) - 1)
      with (k * (- step a) + (- step a - 1)) by lia.
    rewrite Z.div_add_l by lia.
    rewrite Z.div_small by lia. lia.
Qed.

Lemma len_array_range_away (a : ProgramArguments) (k : Z) :
  step a <> 0 -> k < 0 -> final a - start a = k * step a ->
  PyRange.len (array_range a) = 0.
Proof.
  intros Hnz Hk Hd.
  destruct (Z_lt_le_dec 0 (step a)) as [Hs|Hs].
  - apply PyRangeFacts.len_empty_up; cbn; nia.
  - apply PyRangeFacts.len_empty_down; cbn; nia.
Qed.

End GeneratorFacts.

(** ** Strings *)

Module PyStrFacts.
Import PyStr.

Lemma length_append (s t : string) :
  length (s ++ t) = (length s + length t)%nat.
Proof. induction s as [|c s IH]; simpl; [|rewrite IH]; reflexivity. Qed.

Lemma append_assoc (s t u : string) : (s ++ t) ++ u = s ++ (t ++ u).
Proof. induction s as [|c s IH]; simpl; [|rewrite IH]; reflexivity. Qed.

Lemma append_empty_r (s : string) : s ++ "" = s.
Proof. induction s as [|c s IH]; simpl; [|rewrite IH]; reflexivity. Qed.

Lemma length_replicate (n : nat) (c : ascii) : length (replicate n c) = n.
Proof. induction n as [|n IH]; simpl; [|rewrite IH]; reflexivity. Qed.

Lemma forallb_append (p : ascii -> bool) (s t : string) :
  forallb p (s ++ t) = forallb p s && forallb p t.
Proof.
  induction s as [|c s IH]; simpl; [reflexivity|].
  rewrite IH. now rewrite andb_assoc.
Qed.

Lemma forallb_replicate (p : ascii -> bool) (n : nat) (c : ascii) :
  p c = true -> forallb p (replicate n c) = true.
Proof. intros Hc. induction n as [|n IH]; simpl; [|rewrite Hc, IH]; reflexivity. Qed.

(** A slice that ends inside [s] does not see what follows [s]. *)
Lemma substring_append_l (i n : nat) (s t : string) :
  (i + n <= length s)%nat ->
  substring i n (s ++ t) = substring i n s.
Proof.
  revert i n; induction s as [|c s IH]; intros i n Hlen; simpl in Hlen.
  - assert (i = O) by lia. assert (n = O) by lia. subst.
    now destruct t.
  - destruct i as [|i].
    + destruct n as [|n]; [reflexivity|].
      simpl. f_equal. apply IH. simpl. lia.
    + simpl. apply IH. lia.
Qed.

Lemma length_zero_pad (w : nat) (s : string) :
  length (zero_pad w s) = Nat.max w (length s).
Proof.
  unfold zero_pad. rewrite length_append, length_replicate. lia.
Qed.

Lemma zero_pad_wide (w : nat) (s : string) :
  (w <= length s)%nat -> zero_pad w s = s.
Proof.
  intros Hw. unfold zero_pad.
  replace (w - length s)%nat with O by lia. reflexivity.
Qed.

End PyStrFacts.

(** ** Digits: contents, length, and reading them back *)

Module PyFormatFacts.
Import PyStr PyStrFacts PyFormat.

Lemma digit_val_digit_char (d : Z) :
  0 <= d < 16 -> digit_val (digit_char d) = Some d.
Proof.
  intros Hd.
  assert (H : d = 0 \/ d = 1 \/ d = 2 \/ d = 3 \/ d = 4 \/ d = 5 \/ d = 6 \/
              d = 7 \/ d = 8 \/ d = 9 \/ d = 10 \/ d = 11 \/ d = 12 \/
              d = 13 \/ d = 14 \/ d = 15) by lia.
  repeat (destruct H as [->|H]; [reflexivity|]). now subst.
Qed.

Lemma digit_char_is_digit (d : Z) :
  exists v, digit_val (digit_char d) = Some v.
Proof.
  unfold digit_char. generalize (Z.to_nat d) as i. intros i.
  do 16 (destruct i as [|i]; [now eexists|]).
  now eexists.
Qed.

Section Base.
Variable base : Z.
Hypothesis base_range : 2 <= base <= 16.

Lemma to_digits_acc (fuel : nat) (n : Z) (acc : string) :
  to_digits base fuel n acc = to_digits base fuel n "" ++ acc.
Proof.
  revert n acc; induction fuel as [|fuel IH]; intros n acc; [reflexivity|].
  cbn [to_digits].
  destruct (n / base =? 0); [reflexivity|].
  rewrite IH, (IH _ (String _ "")), append_assoc. reflexivity.
Qed.

(** Any fuel that covers the number gives the same digits. *)
Lemma to_digits_fuel (f1 f2 : nat) (n : Z) (acc : string) :
  0 <= n < 2 ^ Z.of_nat (S f1) -> n < 2 ^ Z.of_nat (S f2) ->
  to_digits base (S f1) n acc = to_digits base (S f2) n acc.
Proof.
  revert f2 n acc; induction f1 as [|f1 IH]; intros f2 n acc H1 H2.
  - assert (Hn : n / base = 0).
    { apply Z.div_small. change (2 ^ Z.of_nat 1) with 2 in H1. lia. }
    cbn [to_digits]. rewrite Hn. reflexivity.
  - cbn [to_digits].
    destruct (n / base =? 0) eqn:Hq; [reflexivity|].
    apply Z.eqb_neq in Hq.
    assert (Hq1 : 0 <= n / base) by (apply Z.div_pos; lia).
    assert (Hq2 : 2 * (n / base) <= n).
    { pose proof (Z.div_mod n base ltac:(lia)).
      pose proof (Z.mod_pos_bound n base ltac:(lia)). nia. }
    rewrite (Nat2Z.inj_succ (S f1)), Z.pow_succ_r in H1 by lia.
    destruct f2 as [|f2].
    { change (2 ^ Z.of_nat 1) with 2 in H2. lia. }
    rewrite (Nat2Z.inj_succ (S f2)), Z.pow_succ_r in H2 by lia.
    apply IH; lia.
Qed.

Lemma digit_fuel_covers (n : Z) :
  0 <= n -> n < 2 ^ Z.of_nat (digit_fuel n).
Proof.
  intros Hn. unfold digit_fuel.
  rewrite Nat2Z.inj_succ, Z2Nat.id by apply Z.log2_nonneg.
  destruct (Z.eq_dec n 0) as [->|Hnz]; [reflexivity|].
  apply Z.log2_spec. lia.
Qed.

Lemma digits_small (n : Z) :
  0 <= n < base -> digits base n = String (digit_char n) "".
Proof.
  intros Hn. unfold digits, digit_fuel. cbn [to_digits].
  rewrite Z.div_small, Z.mod_small by lia. reflexivity.
Qed.

(** The last digit is the remainder; the digits before it are those
    of the quotient. *)
Lemma digits_step (n : Z) :
  base <= n ->
  digits base n = digits base (n / base) ++ String (digit_char (n mod base)) "".
Proof.
  intros Hn. unfold digits at 1. unfold digit_fuel at 1.
  cbn [to_digits].
  assert (Hq : 0 < n / base) by (apply Z.div_str_pos; lia).
  replace (n / base =? 0) with false by (symmetry; apply Z.eqb_neq; lia).
  rewrite to_digits_acc. f_equal.
  assert (H2q : 2 * (n / base) <= n).
  { pose proof (Z.div_mod n base ltac:(lia)).
    pose proof (Z.mod_pos_bound n base ltac:(lia)). nia. }
  pose proof (digit_fuel_covers n ltac:(lia)) as Hc.
  unfold digit_fuel in Hc.
  rewrite Nat2Z.inj_succ in Hc.
  destruct (Z.to_nat (Z.log2 n)) as [|f] eqn:Hf.
  { change (2 ^ Z.succ (Z.of_nat 0)) with 2 in Hc. lia. }
  rewrite Z.pow_succ_r in Hc by lia.
  unfold digits.
  pose proof (digit_fuel_covers (n / base) ltac:(lia)) as Hc'.
  unfold digit_fuel in *.
  apply to_digits_fuel; lia.
Qed.

(** Induction along the digits of a number. *)
Lemma digits_ind (P : Z -> Prop) :
  (forall n, 0 <= n < base -> P n) ->
  (forall n, base <= n -> P (n / base) -> P n) ->
  forall n, 0 <= n -> P n.
Proof.
  intros Hsmall Hstep.
  assert (H : forall m n, 0 <= n < 2 ^ Z.of_nat m -> P n).
  { induction m as [|m IH]; intros n Hn.
    - apply Hsmall. change (2 ^ Z.of_nat 0) with 1 in Hn. lia.
    - destruct (Z_lt_le_dec n base) as [Hlt|Hge]; [apply Hsmall; lia|].
      apply Hstep; [assumption|]. apply IH.
      rewrite Nat2Z.inj_succ, Z.pow_succ_r in Hn by lia.
      pose proof (Z.div_mod n base ltac:(lia)).
      pose proof (Z.mod_pos_bound n base ltac:(lia)).
      assert (0 <= n / base) by (apply Z.div_pos; lia).
      nia. }
  intros n Hn. apply (H (digit_fuel n)).
  split; [assumption|]. now apply digit_fuel_covers.
Qed.

Lemma digits_length_pos (n : Z) :
  0 <= n -> (1 <= length (digits base n))%nat.
Proof.
  intros Hn. destruct (Z_lt_le_dec n base) as [Hlt|Hge].
  - rewrite digits_small by lia. simpl. lia.
  - rewrite digits_step, length_append by assumption. simpl. lia.
Qed.

(** A number below [base ^ k] has at most [k] digits. *)
Lemma digits_length_le (k : nat) (n : Z) :
  0 <= n < base ^ Z.of_nat (S k) ->
  (length (digits base n) <= S k)%nat.
Proof.
  revert n; induction k as [|k IH]; intros n Hn.
  - rewrite digits_small; [simpl; lia|].
    change (Z.of_nat 1) with 1 in Hn. rewrite Z.pow_1_r in Hn. lia.
  - destruct (Z_lt_le_dec n base) as [Hlt|Hge].
    + rewrite digits_small by lia. simpl. lia.
    + rewrite digits_step, length_append by assumption. simpl.
      assert (length (digits base (n / base)) <= S k)%nat; [|lia].
      apply IH. split; [apply Z.div_pos; lia|].
      apply Z.div_lt_upper_bound; [lia|].
      rewrite (Nat2Z.inj_succ (S k)), Z.pow_succ_r in Hn by lia. lia.
Qed.

(** A number from [base ^ k] on has more than [k] digits. *)
Lemma digits_length_ge (k : nat) (n : Z) :
  base ^ Z.of_nat k <= n ->
  (S k <= length (digits base n))%nat.
Proof.
  revert n; induction k as [|k IH]; intros n Hn.
  - apply digits_length_pos. change (Z.of_nat 0) with 0 in Hn.
    rewrite Z.pow_0_r in Hn. lia.
  - rewrite Nat2Z.inj_succ, Z.pow_succ_r in Hn by lia.
    assert (Hpow : 0 < base ^ Z.of_nat k) by (apply Z.pow_pos_nonneg; lia).
    assert (Hge : base <= n) by nia.
    rewrite digits_step, length_append by assumption. simpl.
    assert (S k <= length (digits base (n / base)))%nat; [|lia].
    apply IH. apply Z.div_le_lower_bound; lia.
Qed.

Lemma parse_from_append (acc : Z) (s t : string) :
  parse_from base acc (s ++ t)
  = match parse_from base acc s with
    | Some v => parse_from base v t
    | None => None
    end.
Proof.
  revert acc; induction s as [|c s IH]; intros acc; simpl; [reflexivity|].
  destruct (digit_val c) as [d|]; [|reflexivity].
  destruct (d <? base); [apply IH|reflexivity].
Qed.

Lemma parse_from_digit (acc d : Z) :
  0 <= d < base ->
  parse_from base acc (String (digit_char d) "") = Some (acc * base + d).
Proof.
  intros Hd. simpl. rewrite digit_val_digit_char by lia.
  replace (d <? base) with true by (symmetry; apply Z.ltb_lt; lia).
  reflexivity.
Qed.

(** Reading the digits of a number gives the number back. *)
Lemma parse_from_digits (n : Z) :
  0 <= n -> parse_from base 0 (digits base n) = Some n.
Proof.
  revert n. apply digits_ind.
  - intros n Hn. rewrite digits_small, parse_from_digit by lia.
    reflexivity.
  - intros n Hn IH.
    rewrite digits_step, parse_from_append, IH by assumption.
    rewrite parse_from_digit by (apply Z.mod_pos_bound; lia).
    f_equal. pose proof (Z.div_mod n base ltac:(lia)). lia.
Qed.

Lemma parse_digits (n : Z) :
  0 <= n -> parse base (digits base n) = Some n.
Proof.
  intros Hn. pose proof (digits_length_pos n Hn) as Hl.
  pose proof (parse_from_digits n Hn) as Hp.
  unfold parse. destruct (digits base n); [simpl in Hl; lia|assumption].
Qed.

Lemma parse_from_zeros (k : nat) (s : string) :
  parse_from base 0 (replicate k "0" ++ s) = parse_from base 0 s.
Proof.
  induction k as [|k IH]; [reflexivity|].
  cbn [replicate append parse_from].
  change (digit_val "0") with (Some 0). cbv iota.
  destruct (Z.ltb_spec 0 base) as [_|Hb]; [exact IH|lia].
Qed.

End Base.

(** Every character [to_digits] produces is a digit character. *)
Lemma to_digits_upper_hex (base : Z) (fuel : nat) (n : Z) (acc : string) :
  forallb Generator.is_upper_hex acc = true ->
  forallb Generator.is_upper_hex (to_digits base fuel n acc) = true.
Proof.
  revert n acc; induction fuel as [|fuel IH]; intros n acc Hacc; [exact Hacc|].
  cbn [to_digits].
  assert (Hacc' : forallb Generator.is_upper_hex
                    (String (digit_char (n mod base)) acc) = true).
  { cbn [forallb]. rewrite Hacc. unfold Generator.is_upper_hex.
    destruct (digit_char_is_digit (n mod base)) as [v ->]. reflexivity. }
  destruct (n / base =? 0); [exact Hacc'|now apply IH].
Qed.

Lemma format_08X_upper_hex (n : Z) :
  0 <= n -> forallb Generator.is_upper_hex (format_08X n) = true.
Proof.
  intros Hn. unfold format_08X.
  replace (n <? 0) with false by (symmetry; apply Z.ltb_ge; lia).
  unfold zero_pad. rewrite forallb_append, forallb_replicate by reflexivity.
  now apply to_digits_upper_hex.
Qed.

Lemma format_08X_length (n : Z) :
  0 <= n -> (8 <= length (format_08X n))%nat.
Proof.
  intros Hn. unfold format_08X.
  replace (n <? 0) with false by (symmetry; apply Z.ltb_ge; lia).
  rewrite length_zero_pad. lia.
Qed.

(** Up to eight hexadecimal digits fill the field exactly. *)
Lemma format_08X_length_narrow (n : Z) :
  0 <= n < 2 ^ 32 -> length (format_08X n) = 8%nat.
Proof.
  intros Hn. unfold format_08X.
  replace (n <? 0) with false by (symmetry; apply Z.ltb_ge; lia).
  rewrite length_zero_pad.
  pose proof (digits_length_le 16 ltac:(lia) 7 n) as Hle.
  change (16 ^ Z.of_nat 8) with (2 ^ 32) in Hle.
  specialize (Hle Hn). lia.
Qed.

Lemma format_08X_negative (n : Z) :
  n < 0 -> exists rest, format_08X n = String "-" rest.
Proof.
  intros Hn. unfold format_08X.
  replace (n <? 0) with true by (symmetry; apply Z.ltb_lt; lia).
  now eexists.
Qed.

(** Nine hexadecimal digits exceed the field: the eight digits of the
    quotient by sixteen, then the last digit. *)
Lemma format_08X_nine_digits (n : Z) :
  2 ^ 32 <= n < 2 ^ 36 ->
  format_08X n = format_08X (n / 16) ++ String (digit_char (n mod 16)) ""
  /\ length (format_08X (n / 16)) = 8%nat.
Proof.
  intros Hn.
  assert (Hq : 2 ^ 28 <= n / 16 < 2 ^ 32).
  { split.
    - apply Z.div_le_lower_bound; lia.
    - apply Z.div_lt_upper_bound; lia. }
  pose proof (digits_length_ge 16 ltac:(lia) 7 (n / 16)) as Hge.
  change (16 ^ Z.of_nat 7) with (2 ^ 28) in Hge.
  specialize (Hge ltac:(lia)).
  assert (Hpad : format_08X (n / 16) = digits 16 (n / 16)).
  { unfold format_08X.
    replace (n / 16 <? 0) with false by (symmetry; apply Z.ltb_ge; lia).
    now apply zero_pad_wide. }
  split.
  - rewrite Hpad. unfold format_08X.
    replace (n <? 0) with false by (symmetry; apply Z.ltb_ge; lia).
    rewrite (digits_step 16) by lia.
    apply zero_pad_wide. rewrite length_append. lia.
  - apply format_08X_length_narrow. lia.
Qed.

Lemma parse_format_08X (n : Z) :
  0 <= n -> parse_from 16 0 (format_08X n) = Some n.
Proof.
  intros Hn. unfold format_08X.
  replace (n <? 0) with false by (symmetry; apply Z.ltb_ge; lia).
  unfold zero_pad. rewrite parse_from_zeros by lia.
  apply parse_from_digits; lia.
Qed.

(** The decimal count can be read back. *)
Lemma parse_str_int (n : Z) :
  0 <= n -> parse 10 (str_int n) = Some n.
Proof.
  intros Hn. unfold str_int.
  replace (n <? 0) with false by (symmetry; apply Z.ltb_ge; lia).
  apply parse_digits; lia.
Qed.

End PyFormatFacts.

(** ** The generator: the shape of a value line *)

Module ValueLineFacts.
Import PyStr PyStrFacts PyFormat PyFormatFacts Generator.

(** A string of at least eight characters starts with eight of them. *)
Lemma first_eight (s : string) :
  (8 <= length s)%nat ->
  exists c1 c2 c3 c4 c5 c6 c7 c8 rest,
    s = String c1 (String c2 (String c3 (String c4
          (String c5 (String c6 (String c7 (String c8 rest))))))).
Proof.
  intros Hlen.
  do 8 (destruct s as [|? s]; [simpl in Hlen; lia|simpl in Hlen]).
  repeat eexists.
Qed.

(** Splitting eight or more digit characters gives a matching line. *)
Lemma split_matches (s : string) :
  (8 <= length s)%nat ->
  forallb is_upper_hex s = true ->
  matches_line_pattern
    ("0x" ++ (slice 0 4 s ++ "_" ++ slice 4 8 s) ++ ",") = true.
Proof.
  intros Hlen Hall.
  destruct (first_eight s Hlen)
    as (c1 & c2 & c3 & c4 & c5 & c6 & c7 & c8 & rest & ->).
  cbn [forallb] in Hall.
  repeat (apply andb_prop in Hall; destruct Hall as [? Hall]).
  unfold matches_line_pattern, line_pattern, slice.
  cbn [Nat.sub substring append full_match class_accepts].
  repeat match goal with H : is_upper_hex _ = true |- _ => rewrite H; clear H end.
  destruct rest; reflexivity.
Qed.

(** The two groups of a line made from exactly eight characters are
    those eight characters. *)
Lemma split_shows (s : string) :
  length s = 8%nat ->
  let line := "0x" ++ (slice 0 4 s ++ "_" ++ slice 4 8 s) ++ "," in
  slice 2 6 line ++ slice 7 11 line = s.
Proof.
  intros Hlen.
  destruct (first_eight s ltac:(lia))
    as (c1 & c2 & c3 & c4 & c5 & c6 & c7 & c8 & rest & ->).
  destruct rest; [reflexivity|simpl in Hlen; lia].
Qed.

Lemma value_line_matches (v : Z) :
  0 <= v -> matches_line_pattern (value_line v) = true.
Proof.
  intros Hv. unfold value_line.
  apply split_matches;
    [now apply format_08X_length|now apply format_08X_upper_hex].
Qed.

(** The line of a negative value carries the sign after [0x]. *)
Lemma value_line_negative (v : Z) :
  v < 0 -> matches_line_pattern (value_line v) = false.
Proof.
  intros Hv. unfold value_line.
  destruct (format_08X_negative v Hv) as [rest ->].
  reflexivity.
Qed.

Lemma value_line_matches_iff (v : Z) :
  matches_line_pattern (value_line v) = true <-> 0 <= v.
Proof.
  split.
  - intros Hm. destruct (Z_lt_le_dec v 0) as [Hneg|Hge]; [|assumption].
    rewrite (value_line_negative v Hneg) in Hm. discriminate.
  - apply value_line_matches.
Qed.

(** Up to 32 bits the line shows the value itself. *)
Lemma shown_value_narrow (v : Z) :
  0 <= v < 2 ^ 32 -> shown_value (value_line v) = Some v.
Proof.
  intros Hv. unfold shown_value, value_line.
  pose proof (format_08X_length_narrow v Hv) as Hlen.
  rewrite (split_shows _ Hlen).
  pose proof (parse_format_08X v ltac:(lia)) as Hp.
  unfold parse. destruct (format_08X v); [discriminate Hlen|exact Hp].
Qed.

(** A nine-digit value gets the line of its first eight digits. *)
Lemma value_line_nine_digits (v : Z) :
  2 ^ 32 <= v < 2 ^ 36 -> value_line v = value_line (v / 16).
Proof.
  intros Hv. unfold value_line.
  destruct (format_08X_nine_digits v Hv) as [-> Hlen].
  unfold slice.
  rewrite !substring_append_l by (rewrite Hlen; simpl; lia).
  reflexivity.
Qed.

End ValueLineFacts.

(** ** The lister: what a run prints *)

Module ListerFacts.
Import PyStr PyStrFacts Lister.

Lemma for_each_entries (ps : list (Z * dir_entry)) (out : list string) :
  for_each ps
    (fun '(index, path) =>
       print (PyFormat.str_int (index + 1) ++ " " ++ stem (name path))) out
  = ((out ++ map entry_line ps)%list, inr tt).
Proof.
  revert out; induction ps as [|[index path] ps IH]; intros out.
  - cbn. unfold ret. now rewrite app_nil_r.
  - cbn [for_each map]. unfold bind at 1. unfold print at 1.
    rewrite IH. now rewrite <- app_assoc.
Qed.

Lemma run_main_absent (env : environment) :
  examples env = Absent ->
  run (main env)
  = {| stdout := ["Path to examples does not exist.";
                  " - " ++ path_examples env];
       ended := inl (SystemExit 1) |}.
Proof.
  intros H. unfold run, main, path_exists, path_is_dir. rewrite H.
  reflexivity.
Qed.

Lemma run_main_regular_file (env : environment) :
  examples env = RegularFile ->
  run (main env)
  = {| stdout := ["Path to examples is not a directory.";
                  " - " ++ path_examples env];
       ended := inl (SystemExit 1) |}.
Proof.
  intros H. unfold run, main, path_exists, path_is_dir. rewrite H.
  reflexivity.
Qed.

Lemma run_main_directory (env : environment) (entries : list dir_entry) :
  examples env = Directory entries ->
  run (main env)
  = {| stdout := map entry_line (enumerate entries); ended := inr tt |}.
Proof.
  intros H. unfold run, main, path_exists, path_is_dir, iterdir. rewrite H.
  cbn [negb when]. unfold bind at 1. unfold ret at 1.
  unfold bind at 1. unfold ret at 1.
  rewrite for_each_entries. reflexivity.
Qed.

Lemma enumerate_from_nth {A} (xs : list A) (index : Z) (k : nat) (x : A) :
  nth_error xs k = Some x ->
  nth_error (enumerate_from index xs) k = Some (index + Z.of_nat k, x).
Proof.
  revert index k; induction xs as [|y xs IH]; intros index k Hk.
  - destruct k; discriminate.
  - destruct k as [|k]; cbn [enumerate_from nth_error] in *.
    + injection Hk as ->. do 2 f_equal. lia.
    + rewrite (IH _ _ Hk). do 2 f_equal. lia.
Qed.

Lemma enumerate_from_length {A} (xs : list A) (index : Z) :
  List.length (enumerate_from index xs) = List.length xs.
Proof.
  revert index; induction xs as [|y xs IH]; intros index; simpl;
    [|rewrite IH]; reflexivity.
Qed.

(** The last dot of [stem.suffix] is the one between the two, when
    the suffix has no dot of its own. *)
Lemma rfind_dot_suffix (base ext : string) :
  rfind "." ext = None ->
  rfind "." (base ++ String "." ext) = Some (length base).
Proof.
  intros Hext. induction base as [|c base IH]; simpl.
  - rewrite Hext. reflexivity.
  - rewrite IH. reflexivity.
Qed.

Lemma substring_prefix (s t : string) :
  substring 0 (length s) (s ++ t) = s.
Proof.
  induction s as [|c s IH]; simpl.
  - now destruct t.
  - now rewrite IH.
Qed.

Lemma stem_no_dot (name : string) :
  rfind "." name = None -> stem name = name.
Proof. intros H. unfold stem. now rewrite H. Qed.

Lemma stem_strips_suffix (base ext : string) :
  base <> "" -> ext <> "" -> rfind "." ext = None ->
  stem (base ++ String "." ext) = base.
Proof.
  intros Hb He Hext. unfold stem.
  rewrite (rfind_dot_suffix base ext Hext).
  rewrite length_append. cbn [length].
  assert (0 < length base)%nat by (destruct base; [congruence|simpl; lia]).
  assert (0 < length ext)%nat by (destruct ext; [congruence|simpl; lia]).
  replace (0 <? length base)%nat with true
    by (symmetry; apply Nat.ltb_lt; lia).
  replace (length base <? length base + S (length ext) - 1)%nat with true
    by (symmetry; apply Nat.ltb_lt; lia).
  unfold slice. rewrite Nat.sub_0_r. apply substring_prefix.
Qed.

End ListerFacts.

(** ** Properties of the generator *)

Import Generator.

(** C1, as stated, fails: for [start = 0], [final = 5], [step = 2] the
    range is [0, 2, 4, 6], four value lines, while
    [floor((final - start) / step) + 1] is three. *)
Lemma C1_floor_count_counterexample :
  let a := {| start := 0; final := 5; step := 2 |} in
  start a <= final a /\ 0 < step a /\
  value_lines (run (main a))
  = ["0x0000_0000,"; "0x0000_0002,"; "0x0000_0004,"; "0x0000_0006,"] /\
  Z.of_nat (List.length (value_lines (run (main a))))
  <> (final a - start a) / step a + 1.
Proof. cbv zeta. repeat split; try reflexivity; discriminate. Qed.

(** C1, amended: for [start <= final] and a positive [step], the number
    of value lines printed before the count line is
    [floor((final - start) / step) + 1] when [step] divides
    [final - start], and one more than that otherwise (the quotient is
    rounded up, because the range stops before [final + step]). *)
Theorem C1_value_line_count (a : ProgramArguments) :
  start a <= final a -> 0 < step a ->
  Z.of_nat (List.length (value_lines (run (main a))))
  = (final a - start a) / step a + 1
    + (if (final a - start a) mod step a =? 0 then 0 else 1).
Proof.
  intros Hle Hs.
  rewrite GeneratorFacts.value_lines_count by lia.
  now apply GeneratorFacts.len_array_range_up.
Qed.

Lemma C1_value_line_count_witness :
  let a := {| start := 3; final := 20; step := 4 |} in
  start a <= final a /\ 0 < step a /\
  Z.of_nat (List.length (value_lines (run (main a)))) = 6.
Proof.
  cbv zeta. split; [cbn; lia|]. split; [cbn; lia|].
  apply (C1_value_line_count {| start := 3; final := 20; step := 4 |});
    cbn; lia.
Defined.

(** C2, as stated, fails: with [step = 0] the call of [range] raises
    [ValueError], so the run ends at once, with nothing printed. *)
Lemma C2_zero_step_counterexample :
  let a := {| start := 0; final := 16; step := 0 |} in
  step a = 0 /\
  run (main a) = {| stdout := []; ended := inl ValueError |}.
Proof. cbv zeta. split; reflexivity. Qed.

(** C2, amended: for every [start] and [final] and for [step = 0], the
    construction of the range raises [ValueError]: the run terminates
    with exit status 1 and no line on standard output. *)
Theorem C2_zero_step_raises (a : ProgramArguments) :
  step a = 0 ->
  stdout (run (main a)) = [] /\
  ended (run (main a)) = inl ValueError /\
  exit_status (run (main a)) = 1.
Proof.
  intros Hz. rewrite (GeneratorFacts.run_main_zero_step a Hz).
  repeat split.
Qed.

Lemma C2_zero_step_raises_witness :
  let a := {| start := 7; final := 2; step := 0 |} in
  step a = 0 /\
  stdout (run (main a)) = [] /\
  ended (run (main a)) = inl ValueError /\
  exit_status (run (main a)) = 1.
Proof.
  cbv zeta. split; [reflexivity|].
  apply (C2_zero_step_raises {| start := 7; final := 2; step := 0 |}).
  reflexivity.
Defined.

(** C3, as stated, fails: counting down from [5] to [0] by [-2] goes on
    to [-1], and [start = final = -1] with [step = 1] prints [-1] alone;
    the line of [-1] is [0x-000_0001,], which the pattern rejects. *)
Lemma C3_pattern_counterexample :
  let a := {| start := 5; final := 0; step := -2 |} in
  let b := {| start := -1; final := -1; step := 1 |} in
  step a <> 0 /\ step b <> 0 /\
  value_lines (run (main a))
  = ["0x0000_0005,"; "0x0000_0003,"; "0x0000_0001,"; "0x-000_0001,"] /\
  value_lines (run (main b)) = ["0x-000_0001,"] /\
  matches_line_pattern "0x-000_0001," = false.
Proof. cbv zeta. repeat split; discriminate. Qed.

(** C3, amended: for every [start], [final] and non-zero [step], the
    value lines are the lines of the values of the range, in order, and
    such a line matches [0x[0-9A-F]{4}_[0-9A-F]{4},] exactly when its
    value is not negative; in particular every value line matches when
    [start >= 0] and [step > 0]. *)
Theorem C3_value_line_pattern (a : ProgramArguments) :
  step a <> 0 ->
  Forall2 (fun v line =>
             line = value_line v /\
             (matches_line_pattern line = true <-> 0 <= v))
          (PyRange.values (array_range a)) (value_lines (run (main a)))
  /\ (0 <= start a -> 0 < step a ->
      Forall (fun line => matches_line_pattern line = true)
             (value_lines (run (main a)))).
Proof.
  intros Hnz. rewrite (GeneratorFacts.value_lines_main a Hnz). split.
  - induction (PyRange.values (array_range a)) as [|v vs IH]; constructor.
    + split; [reflexivity|apply ValueLineFacts.value_line_matches_iff].
    + exact IH.
  - intros Hstart Hstep. apply Forall_forall. intros line Hin.
    apply in_map_iff in Hin. destruct Hin as (v & <- & Hv).
    apply ValueLineFacts.value_line_matches.
    apply PyRangeFacts.values_spec in Hv; [|exact Hnz].
    destruct Hv as (i & Hi & -> & _). cbn. nia.
Qed.

Lemma C3_value_line_pattern_witness :
  let a := {| start := 5; final := 0; step := -2 |} in
  step a <> 0 /\
  Forall2 (fun v line =>
             line = value_line v /\
             (matches_line_pattern line = true <-> 0 <= v))
          (PyRange.values (array_range a)) (value_lines (run (main a))).
Proof.
  cbv zeta. split; [cbn; lia|].
  apply (C3_value_line_pattern {| start := 5; final := 0; step := -2 |}).
  cbn; lia.
Defined.

(** C5, as stated, fails: for [start = 0], [final = 2^63] and
    [step = 1] the range has [2^63 + 1] values, more than [len] can
    report.  The loop prints a line for each of them, then [len] raises
    [OverflowError]: the last line printed is the line of [2^63], and
    no count is printed. *)
Lemma C5_count_line_counterexample :
  let a := {| start := 0; final := 2 ^ 63; step := 1 |} in
  start a <= final a /\ 0 < step a /\
  ended (run (main a)) = inl OverflowError /\
  Z.of_nat (List.length (stdout (run (main a)))) = 2 ^ 63 + 1 /\
  stdout (run (main a)) = value_lines (run (main a)) /\
  last (stdout (run (main a))) "" = "0x8000_0000,".
Proof.
  cbv zeta.
  set (a := {| start := 0; final := 2 ^ 63; step := 1 |}).
  assert (Hlen : PyRange.len (array_range a) = 2 ^ 63 + 1)
    by (vm_compute; reflexivity).
  assert (Hnz : step a <> 0) by discriminate.
  assert (Hover : PyRange.sys_maxsize < PyRange.len (array_range a))
    by (rewrite Hlen; vm_compute; reflexivity).
  split; [discriminate|]. split; [reflexivity|].
  unfold value_lines.
  rewrite (GeneratorFacts.run_main_overflow a Hnz Hover). cbn [stdout ended].
  split; [reflexivity|]. split.
  - rewrite length_map, PyRangeFacts.values_length. exact Hlen.
  - split; [reflexivity|].
    destruct (PyRangeFacts.values_end (array_range a)) as [front Hfront];
      [rewrite Hlen; reflexivity|].
    rewrite Hfront, map_app. cbn [map]. rewrite last_last.
    rewrite Hlen. vm_compute. reflexivity.
Qed.

(** C5, amended: for [start <= final] and a positive [step], when the
    number of value lines is at most [sys.maxsize], the last line is
    the decimal representation of the number of value lines printed
    before it, and reading it back as a decimal number gives that
    number; when there are more, the run is stopped by [OverflowError]
    after the value lines and prints no count line. *)
Theorem C5_count_line (a : ProgramArguments) :
  start a <= final a -> 0 < step a ->
  let o := run (main a) in
  (Z.of_nat (List.length (value_lines o)) <= PyRange.sys_maxsize ->
   ended o = inr tt /\
   stdout o = (value_lines o ++ [count_line o])%list /\
   count_line o = PyFormat.str_int (Z.of_nat (List.length (value_lines o))) /\
   PyFormat.parse 10 (count_line o)
   = Some (Z.of_nat (List.length (value_lines o)))) /\
  (PyRange.sys_maxsize < Z.of_nat (List.length (value_lines o)) ->
   ended o = inl OverflowError /\ stdout o = value_lines o).
Proof.
  intros Hle Hs. cbv zeta.
  assert (Hnz : step a <> 0) by lia.
  rewrite (GeneratorFacts.value_lines_count a Hnz).
  rewrite (GeneratorFacts.value_lines_main a Hnz).
  split; intros Hmax.
  - rewrite (GeneratorFacts.count_line_main a Hnz Hmax).
    rewrite (GeneratorFacts.run_main a Hnz Hmax). cbn [stdout ended].
    repeat split.
    apply PyFormatFacts.parse_str_int, PyRangeFacts.len_nonneg.
  - rewrite (GeneratorFacts.run_main_overflow a Hnz Hmax).
    split; reflexivity.
Qed.

Lemma C5_count_line_witness :
  let a := {| start := 0; final := 100; step := 7 |} in
  start a <= final a /\ 0 < step a /\
  Z.of_nat (List.length (value_lines (run (main a)))) <= PyRange.sys_maxsize /\
  count_line (run (main a))
  = PyFormat.str_int (Z.of_nat (List.length (value_lines (run (main a))))).
Proof.
  cbv zeta.
  assert (H1 : start {| start := 0; final := 100; step := 7 |}
               <= final {| start := 0; final := 100; step := 7 |})
    by (cbn; lia).
  assert (H2 : 0 < step {| start := 0; final := 100; step := 7 |})
    by (cbn; lia).
  assert (H3 : Z.of_nat (List.length
                 (value_lines
                    (run (main {| start := 0; final := 100; step := 7 |}))))
               <= PyRange.sys_maxsize) by (vm_compute; discriminate).
  destruct (C5_count_line _ H1 H2) as [Hfit _].
  destruct (Hfit H3) as (_ & _ & Hcount & _).
  split; [exact H1|]. split; [exact H2|]. split; [exact H3|exact Hcount].
Defined.

(** C6, as stated, fails: for [start = 0x10], [final = 0] and
    [step = 16] the difference is an exact multiple of the step, the
    range [range(16, 16, 16)] is empty, and [final] is not printed. *)
Lemma C6_last_value_counterexample :
  let a := {| start := 16; final := 0; step := 16 |} in
  step a <> 0 /\
  final a - start a = (-1) * step a /\
  PyRange.values (array_range a) = [] /\
  stdout (run (main a)) = ["0"].
Proof. cbv zeta. repeat split. discriminate. Qed.

(** C6, amended: for every [start], [final] and non-zero [step] with
    [final - start = k * step], the sequence ends with [final] when
    [k >= 0] (counting up for a positive step, down for a negative one),
    and its last value line is the line of [final]; when [k < 0], the
    step leads away from [final] and the sequence is empty. *)
Theorem C6_last_value (a : ProgramArguments) (k : Z) :
  step a <> 0 ->
  final a - start a = k * step a ->
  (0 <= k ->
   exists front,
     PyRange.values (array_range a) = (front ++ [final a])%list /\
     value_lines (run (main a))
     = (map value_line front ++ [value_line (final a)])%list)
  /\ (k < 0 ->
      PyRange.values (array_range a) = [] /\ value_lines (run (main a)) = []).
Proof.
  intros Hnz Hd. rewrite (GeneratorFacts.value_lines_main a Hnz). split.
  - intros Hk. unfold PyRange.values.
    rewrite (GeneratorFacts.len_array_range_exact a k Hnz Hk Hd).
    replace (Z.to_nat (k + 1)) with (S (Z.to_nat k)) by lia.
    rewrite PyRangeFacts.iterate_snoc.
    exists (PyRange.iterate (Z.to_nat k) (PyRange.start (array_range a))
              (PyRange.step (array_range a))).
    rewrite Z2Nat.id by lia. cbn [array_range PyRange.start PyRange.step].
    replace (start a + k * step a) with (final a) by lia.
    split; [reflexivity|].
    now rewrite map_app.
  - intros Hk. unfold PyRange.values.
    rewrite (GeneratorFacts.len_array_range_away a k Hnz Hk Hd).
    split; reflexivity.
Qed.

Lemma C6_last_value_witness :
  let a := {| start := 32; final := 0; step := -16 |} in
  step a <> 0 /\
  final a - start a = 2 * step a /\
  (0 <= 2 ->
   exists front,
     PyRange.values (array_range a) = (front ++ [final a])%list /\
     value_lines (run (main a))
     = (map value_line front ++ [value_line (final a)])%list).
Proof.
  cbv zeta. split; [cbn; lia|]. split; [reflexivity|].
  apply (C6_last_value {| start := 32; final := 0; step := -16 |} 2);
    [cbn; lia|reflexivity].
Defined.

(** C7: for [start = 0x00000000], [final = 0x00000010] and [step = 16]
    the output is exactly the three lines [0x0000_0000,],
    [0x0000_0010,] and [2], and the run ends normally. *)
Theorem C7_example_output :
  run (main {| start := 0; final := 16; step := 16 |})
  = {| stdout := ["0x0000_0000,"; "0x0000_0010,"; "2"]; ended := inr tt |}.
Proof. reflexivity. Qed.

(** C9: for a positive [step] and [start >= final + step] no value line
    is printed: the whole output is the count line [0]. *)
Theorem C9_empty_range (a : ProgramArguments) :
  0 < step a -> final a + step a <= start a ->
  value_lines (run (main a)) = [] /\
  stdout (run (main a)) = ["0"].
Proof.
  intros Hs Hge.
  assert (Hnz : step a <> 0) by lia.
  assert (Hlen : PyRange.len (array_range a) = 0)
    by (apply PyRangeFacts.len_empty_up; cbn; lia).
  rewrite (GeneratorFacts.value_lines_main a Hnz).
  rewrite (GeneratorFacts.run_main a Hnz)
    by (rewrite Hlen; discriminate).
  unfold PyRange.values. rewrite Hlen. split; reflexivity.
Qed.

Lemma C9_empty_range_witness :
  let a := {| start := 48; final := 16; step := 32 |} in
  0 < step a /\ final a + step a <= start a /\
  value_lines (run (main a)) = [] /\
  stdout (run (main a)) = ["0"].
Proof.
  cbv zeta. split; [cbn; lia|]. split; [cbn; lia|].
  apply (C9_empty_range {| start := 48; final := 16; step := 32 |}); cbn; lia.
Defined.

(** C10: when a value [v] of the sequence has nine hexadecimal digits
    ([2^32 <= v < 2^36]), its formatted text has nine characters, the
    line printed for it is made of the first eight of them only (it is
    the line of [v / 16]), and the number the line shows is [v / 16],
    not [v]. *)
Theorem C10_nine_digit_value (a : ProgramArguments) (i : nat) (v : Z) :
  step a <> 0 ->
  nth_error (PyRange.values (array_range a)) i = Some v ->
  2 ^ 32 <= v < 2 ^ 36 ->
  exists first_eight line,
    PyFormat.format_08X v
    = first_eight ++ String (PyFormat.digit_char (v mod 16)) "" /\
    length first_eight = 8%nat /\
    nth_error (value_lines (run (main a))) i = Some line /\
    line = "0x" ++ (PyStr.slice 0 4 first_eight ++ "_"
                    ++ PyStr.slice 4 8 first_eight) ++ "," /\
    shown_value line = Some (v / 16) /\
    v / 16 <> v.
Proof.
  intros Hnz Hi Hv.
  destruct (PyFormatFacts.format_08X_nine_digits v Hv) as [Hfmt Hlen].
  assert (Hq : 0 <= v / 16 < 2 ^ 32).
  { split; [apply Z.div_pos; lia|apply Z.div_lt_upper_bound; lia]. }
  exists (PyFormat.format_08X (v / 16)), (value_line v).
  split; [exact Hfmt|]. split; [exact Hlen|]. split.
  { rewrite (GeneratorFacts.value_lines_main a Hnz).
    now rewrite nth_error_map, Hi. }
  rewrite (ValueLineFacts.value_line_nine_digits v Hv).
  split; [reflexivity|]. split.
  - now apply ValueLineFacts.shown_value_narrow.
  - lia.
Qed.

Lemma C10_nine_digit_value_witness :
  let a := {| start := 2 ^ 32 + 10; final := 2 ^ 32 + 10; step := 1 |} in
  step a <> 0 /\
  nth_error (PyRange.values (array_range a)) 0 = Some (2 ^ 32 + 10) /\
  2 ^ 32 <= 2 ^ 32 + 10 < 2 ^ 36 /\
  exists line,
    nth_error (value_lines (run (main a))) 0 = Some line /\
    shown_value line = Some ((2 ^ 32 + 10) / 16).
Proof.
  cbv zeta. split; [cbn; lia|]. split; [reflexivity|]. split; [lia|].
  destruct (C10_nine_digit_value
              {| start := 2 ^ 32 + 10; final := 2 ^ 32 + 10; step := 1 |}
              0 (2 ^ 32 + 10))
    as (first_eight & line & _ & _ & Hline & _ & Hshown & _);
    [cbn; lia|reflexivity|lia|].
  exists line. split; [exact Hline|exact Hshown].
Defined.

(** ** Properties of the lister *)

(** C4, as stated, fails: a directory entry named [v1.0] is printed as
    [1 v1], not by its unmodified name. *)
Lemma C4_directory_name_counterexample :
  let e := {| Lister.name := "v1.0"; Lister.is_directory := true |} in
  let env := {| Lister.cwd := "/home/user/bsp";
                Lister.examples := Lister.Directory [e] |} in
  stdout (run (Lister.main env)) = ["1 v1"] /\
  "1 v1" <> PyFormat.str_int 1 ++ " " ++ Lister.promised_name e.
Proof. cbv zeta. split; [reflexivity|discriminate]. Qed.

(** C4, amended: for every entry of the examples directory, file or
    directory alike, the line printed at the entry's position is the
    1-based enumeration index, a space, and the stem of the entry's
    name: a name [base.ext] (both parts non-empty, no dot in [ext]) is
    printed as [base], and a name without a dot is printed unmodified.
    One line is printed per entry and the run ends normally. *)
Theorem C4_entry_lines (env : Lister.environment)
    (entries : list Lister.dir_entry) :
  Lister.examples env = Lister.Directory entries ->
  let o := run (Lister.main env) in
  List.length (stdout o) = List.length entries /\
  ended o = inr tt /\
  (forall k e,
     nth_error entries k = Some e ->
     nth_error (stdout o) k
     = Some (PyFormat.str_int (Z.of_nat k + 1) ++ " "
             ++ Lister.stem (Lister.name e))) /\
  (forall base ext,
     base <> "" -> ext <> "" -> PyStr.rfind "." ext = None ->
     Lister.stem (base ++ String "." ext) = base) /\
  (forall name, PyStr.rfind "." name = None -> Lister.stem name = name).
Proof.
  intros Hdir. cbv zeta.
  rewrite (ListerFacts.run_main_directory env entries Hdir). cbn [stdout ended].
  split.
  { unfold Lister.enumerate.
    now rewrite length_map, ListerFacts.enumerate_from_length. }
  split; [reflexivity|]. split.
  { intros k e Hk. unfold Lister.enumerate.
    rewrite nth_error_map, (ListerFacts.enumerate_from_nth _ 0 k e Hk).
    reflexivity. }
  split.
  - apply ListerFacts.stem_strips_suffix.
  - apply ListerFacts.stem_no_dot.
Qed.

Lemma C4_entry_lines_witness :
  let env := {| Lister.cwd := "/home/user/bsp";
                Lister.examples := Lister.Directory
                  [ {| Lister.name := "blinky.rs"; Lister.is_directory := false |};
                    {| Lister.name := "drivers"; Lister.is_directory := true |} ] |} in
  List.length (stdout (run (Lister.main env))) = 2%nat /\
  ended (run (Lister.main env)) = inr tt.
Proof.
  cbv zeta.
  destruct (C4_entry_lines
              {| Lister.cwd := "/home/user/bsp";
                 Lister.examples := Lister.Directory
                   [ {| Lister.name := "blinky.rs"; Lister.is_directory := false |};
                     {| Lister.name := "drivers"; Lister.is_directory := true |} ] |}
              [ {| Lister.name := "blinky.rs"; Lister.is_directory := false |};
                {| Lister.name := "drivers"; Lister.is_directory := true |} ]
              eq_refl)
    as (Hlen & Hend & _).
  split; [exact Hlen|exact Hend].
Defined.



(** ** Reading integers: digit strings *)

Module PyIntFacts.
Import PyStr PyStrFacts PyFormat PyFormatFacts PyInt.

(** What the parser sees in a character of the digit alphabet: the
    same value, and neither white space, a sign, an underscore nor the
    letter of a base prefix. *)
Lemma alphabet_char (c : ascii) (d : Z) :
  digit_val c = Some d ->
  digit_value c = Some d /\ is_space c = false /\
  Ascii.eqb c "_" = false /\ Ascii.eqb c "+" = false /\
  Ascii.eqb c "-" = false /\ Ascii.eqb c "x" = false /\
  Ascii.eqb c "X" = false.
Proof.
  destruct c as [[] [] [] [] [] [] [] []]; intros H;
    try discriminate H; injection H as <-; repeat split.
Qed.

(** The characters of the digit alphabet are ASCII. *)
Lemma alphabet_ascii (c : ascii) (d : Z) :
  digit_val c = Some d -> ascii_char c = true.
Proof.
  destruct c as [[] [] [] [] [] [] [] []]; intros H;
    try discriminate H; reflexivity.
Qed.


(** A digit string that [parse_from] accepts is ASCII text. *)
Lemma parse_from_ascii (base : Z) (s : string) :
  forall acc v, parse_from base acc s = Some v -> is_ascii_text s = true.
Proof.
  induction s as [|c s IH]; intros acc v Hp; [reflexivity|].
  cbn [parse_from] in Hp. unfold is_ascii_text. cbn [PyStr.forallb].
  destruct (digit_val c) as [d|] eqn:Hc; [|discriminate].
  rewrite (alphabet_ascii c d Hc).
  destruct (d <? base); [|discriminate].
  exact (IH _ _ Hp).
Qed.

(** ASCII text is parsed as it stands. *)
Lemma parse_ascii_text (s : string) (base : Z) :
  is_ascii_text s = true -> PyInt.parse s base = parse_buffer s base.
Proof. intros H. unfold PyInt.parse, to_ascii. now rewrite H. Qed.

(** The scan reads a run of digits as [parse_from] does, whatever
    follows the run. *)
Lemma scan_digit_run (base : Z) (s t : string) :
  forall (prev : bool) (acc : Z) (count : nat) (v : Z),
    s <> "" ->
    parse_from base acc s = Some v ->
    scan_digits base prev acc count (s ++ t)
    = scan_digits base false v (count + length s) t.
Proof.
  induction s as [|c s IH]; intros prev acc count v Hne Hp; [congruence|].
  cbn [parse_from] in Hp. cbn [append scan_digits length].
  destruct (digit_val c) as [d|] eqn:Hc; [|discriminate].
  destruct (alphabet_char c d Hc) as (Hv & _ & Hu & _).
  rewrite Hu, Hv.
  destruct (d <? base); [|discriminate].
  destruct s as [|c' s'].
  - cbn [parse_from] in Hp. injection Hp as <-.
    cbn [append length]. now rewrite Nat.add_1_r.
  - rewrite (IH false (acc * base + d) (S count) v ltac:(discriminate) Hp).
    f_equal. cbn [length]. lia.
Qed.

(** A run of digits that ends the text. *)
Lemma scan_digit_run_end (base : Z) (s : string) (prev : bool)
    (acc : Z) (count : nat) (v : Z) :
  s <> "" ->
  parse_from base acc s = Some v ->
  scan_digits base prev acc count s = Some (v, (count + length s)%nat, "").
Proof.
  intros Hne Hp.
  rewrite <- (append_empty_r s) at 1.
  now rewrite (scan_digit_run base s "" prev acc count v Hne Hp).
Qed.

(** The first character of a digit string that [parse_from] accepts. *)
Lemma parse_from_head (base acc v : Z) (c : ascii) (s : string) :
  parse_from base acc (String c s) = Some v ->
  exists d, digit_val c = Some d.
Proof.
  cbn [parse_from]. destruct (digit_val c) as [d|]; [now eexists|discriminate].
Qed.

(** A digit string has no prefix to strip. *)
Lemma strip_prefix_digits (base acc v : Z) (s : string) :
  parse_from base acc s = Some v -> strip_prefix base s = s.
Proof.
  intros Hp. destruct s as [|c0 [|c1 s]]; try reflexivity.
  cbn [parse_from] in Hp.
  destruct (digit_val c0) as [d0|]; [|discriminate].
  destruct (d0 <? base); [|discriminate].
  destruct (parse_from_head _ _ _ _ _ Hp) as [d1 Hc1].
  destruct (alphabet_char c1 d1 Hc1) as (_ & _ & _ & _ & _ & Hx & HX).
  unfold strip_prefix. rewrite Hx, HX.
  now rewrite andb_false_r.
Qed.

(** A non-empty digit string within the digit limit is read as
    [parse_from] reads it. *)
Lemma parse_unsigned_digits (base v : Z) (s : string) :
  s <> "" ->
  base = 16 \/ (length s <= max_str_digits)%nat ->
  parse_from base 0 s = Some v ->
  parse_unsigned s base = Some v.
Proof.
  intros Hne Hlim Hp. unfold parse_unsigned.
  rewrite (strip_prefix_digits base 0 v s Hp).
  destruct s as [|c s]; [congruence|].
  destruct (parse_from_head _ _ _ _ _ Hp) as [d Hc].
  destruct (alphabet_char c d Hc) as (_ & _ & Hu & _).
  rewrite Hu.
  rewrite (scan_digit_run_end base (String c s) false 0 0 v Hne Hp).
  cbn [Nat.add length Nat.eqb skip_spaces].
  destruct Hlim as [->|Hlen].
  - reflexivity.
  - replace (max_str_digits <? S (length s))%nat with false
      by (symmetry; apply Nat.ltb_ge; exact Hlen).
    now rewrite andb_false_r.
Qed.

Lemma parse_digits_text (base v : Z) (s : string) :
  s <> "" ->
  base = 16 \/ (length s <= max_str_digits)%nat ->
  parse_from base 0 s = Some v ->
  PyInt.parse s base = Some v.
Proof.
  intros Hne Hlim Hp.
  rewrite (parse_ascii_text s base (parse_from_ascii base s 0 v Hp)).
  unfold parse_buffer.
  destruct s as [|c s]; [congruence|].
  destruct (parse_from_head _ _ _ _ _ Hp) as [d Hc].
  destruct (alphabet_char c d Hc) as (_ & Hs & _ & Hplus & Hminus & _).
  cbn [skip_spaces]. rewrite Hs, Hplus, Hminus.
  now apply parse_unsigned_digits.
Qed.

End PyIntFacts.

(** ** Reading back what the generator prints *)

Module ReadBackFacts.
Import PyStr PyStrFacts PyFormat PyFormatFacts PyInt PyIntFacts.

Lemma digits_nonempty (base n : Z) :
  2 <= base <= 16 -> 0 <= n -> digits base n <> "".
Proof.
  intros Hb Hn E. pose proof (digits_length_pos base Hb n Hn) as Hl.
  rewrite E in Hl. simpl in Hl. lia.
Qed.

Lemma zero_pad_nonempty (w : nat) (s : string) : s <> "" -> zero_pad w s <> "".
Proof.
  intros Hs E. apply Hs.
  assert (Hl : length (zero_pad w s) = 0%nat) by now rewrite E.
  rewrite length_zero_pad in Hl.
  destruct s; [reflexivity|simpl in Hl; lia].
Qed.

Lemma parse_from_zero_pad (w : nat) (n : Z) :
  0 <= n -> parse_from 16 0 (zero_pad w (digits 16 n)) = Some n.
Proof.
  intros Hn. unfold zero_pad.
  rewrite parse_from_zeros by lia. apply parse_from_digits; lia.
Qed.

(** The decimal digits of a number below [10 ^ max_str_digits] stay
    within the digit limit. *)
Lemma decimal_digits_within_limit (n : Z) :
  0 <= n < 10 ^ Z.of_nat max_str_digits ->
  (length (digits 10 n) <= max_str_digits)%nat.
Proof.
  intros Hn.
  exact (digits_length_le 10 ltac:(lia) (Nat.pred max_str_digits) n Hn).
Qed.

(** The two groups of a line, with the separator between them, are
    read as the eight characters they come from; the comma that ends
    the line is no part of a number. *)
Lemma split_literal (s : string) (v : Z) :
  length s = 8%nat ->
  parse_from 16 0 s = Some v ->
  let literal := "0x" ++ (slice 0 4 s ++ "_" ++ slice 4 8 s) in
  PyInt.parse literal 16 = Some v /\
  PyInt.parse (literal ++ ",") 16 = None.
Proof.
  intros Hlen Hp.
  destruct (ValueLineFacts.first_eight s ltac:(lia))
    as (c1 & c2 & c3 & c4 & c5 & c6 & c7 & c8 & rest & ->).
  destruct rest; [|simpl in Hlen; lia]. clear Hlen.
  change (String c1 (String c2 (String c3 (String c4
            (String c5 (String c6 (String c7 (String c8 ""))))))))
    with (String c1 (String c2 (String c3 (String c4 ""))) ++
          String c5 (String c6 (String c7 (String c8 "")))) in Hp.
  rewrite (parse_from_append 16) in Hp.
  destruct (parse_from 16 0 (String c1 (String c2 (String c3 (String c4 "")))))
    as [v1|] eqn:Hhigh; [|discriminate].
  destruct (parse_from_head _ _ _ _ _ Hhigh) as [d1 Hc1].
  destruct (alphabet_char c1 d1 Hc1) as (_ & _ & Hu & _).
  assert (Hscan : forall t,
    scan_digits 16 false 0 0
      (String c1 (String c2 (String c3 (String c4 "")))
       ++ String "_" (String c5 (String c6 (String c7 (String c8 ""))) ++ t))
    = scan_digits 16 false v 8 t).
  { intros t.
    rewrite (scan_digit_run 16
               (String c1 (String c2 (String c3 (String c4 "")))) _
               false 0 0 v1 ltac:(discriminate) Hhigh).
    cbn [scan_digits]. change (Ascii.eqb "_" "_") with true. cbv iota.
    now rewrite (scan_digit_run 16
                   (String c5 (String c6 (String c7 (String c8 "")))) _
                   true v1 _ v ltac:(discriminate) Hp). }
  pose proof (parse_from_ascii 16 _ 0 v1 Hhigh) as Ahigh.
  pose proof (parse_from_ascii 16 _ v1 v Hp) as Alow.
  unfold is_ascii_text in Ahigh, Alow. cbn [PyStr.forallb] in Ahigh, Alow.
  apply andb_prop in Ahigh. destruct Ahigh as [A1 Ahigh].
  apply andb_prop in Ahigh. destruct Ahigh as [A2 Ahigh].
  apply andb_prop in Ahigh. destruct Ahigh as [A3 Ahigh].
  apply andb_prop in Ahigh. destruct Ahigh as [A4 _].
  apply andb_prop in Alow. destruct Alow as [A5 Alow].
  apply andb_prop in Alow. destruct Alow as [A6 Alow].
  apply andb_prop in Alow. destruct Alow as [A7 Alow].
  apply andb_prop in Alow. destruct Alow as [A8 _].
  cbv zeta. unfold slice.
  cbn [Nat.sub substring append].
  rewrite !parse_ascii_text
    by (unfold is_ascii_text; cbn [PyStr.forallb];
        rewrite A1, A2, A3, A4, A5, A6, A7, A8; reflexivity).
  unfold parse_buffer. cbn [skip_spaces].
  change (is_space "0") with false. cbv iota.
  change (Ascii.eqb "0" "+") with false.
  change (Ascii.eqb "0" "-") with false. cbv iota.
  unfold parse_unsigned, strip_prefix.
  change ((16 =? 16) && Ascii.eqb "0" "0"
          && (Ascii.eqb "x" "x" || Ascii.eqb "x" "X")) with true.
  cbv iota. rewrite Hu. cbv iota. rewrite Hu.
  split.
  - pose proof (Hscan "") as H. cbn [append] in H. rewrite H.
    reflexivity.
  - pose proof (Hscan ",") as H. cbn [append] in H. rewrite H.
    reflexivity.
Qed.



(** Hexadecimal text of any integer is read back. *)
Lemma format_08X_parse (v : Z) :
  PyInt.parse (format_08X v) 16 = Some v.
Proof.
  unfold format_08X.
  destruct (Z.ltb_spec v 0) as [Hneg|Hpos].
  - rewrite parse_ascii_text.
    2:{ unfold is_ascii_text. cbn [PyStr.forallb].
        change (ascii_char "-") with true. cbn [andb].
        apply (parse_from_ascii 16 _ 0 (- v)).
        apply parse_from_zero_pad. lia. }
    unfold parse_buffer. cbn [PyInt.skip_spaces].
    change (PyInt.is_space "-") with false. cbv iota.
    change (Ascii.eqb "-" "+") with false.
    change (Ascii.eqb "-" "-") with true. cbv iota.
    rewrite (parse_unsigned_digits 16 (- v)).
    + cbn [option_map]. f_equal. lia.
    + apply zero_pad_nonempty,
        digits_nonempty; lia.
    + now left.
    + apply parse_from_zero_pad. lia.
  - apply parse_digits_text.
    + apply zero_pad_nonempty,
        digits_nonempty; lia.
    + now left.
    + now apply parse_from_zero_pad.
Qed.

(** Decimal text within the digit limit is read back. *)
Lemma str_int_parse (n : Z) :
  Z.abs n < 10 ^ Z.of_nat max_str_digits ->
  PyInt.parse (str_int n) 10 = Some n.
Proof.
  intros Hn. unfold str_int.
  destruct (Z.ltb_spec n 0) as [Hneg|Hpos].
  - rewrite parse_ascii_text.
    2:{ unfold is_ascii_text. cbn [PyStr.forallb].
        change (ascii_char "-") with true. cbn [andb].
        apply (parse_from_ascii 10 _ 0 (- n)).
        apply parse_from_digits; lia. }
    unfold parse_buffer. cbn [PyInt.skip_spaces].
    change (PyInt.is_space "-") with false. cbv iota.
    change (Ascii.eqb "-" "+") with false.
    change (Ascii.eqb "-" "-") with true. cbv iota.
    rewrite (parse_unsigned_digits 10 (- n)).
    + cbn [option_map]. f_equal. lia.
    + apply digits_nonempty; lia.
    + right. apply decimal_digits_within_limit. lia.
    + apply parse_from_digits; lia.
  - apply parse_digits_text.
    + apply digits_nonempty; lia.
    + right. apply decimal_digits_within_limit. lia.
    + apply parse_from_digits; lia.
Qed.

End ReadBackFacts.

(** ** After [parse_args]: reading the arguments, then printing *)

Module CliFacts.
Import Cli.

(** The arguments a run reads, if all three texts are integers. *)
Lemma get_outcome (start_text final_text step_text : string)
    (out : list string) :
  get start_text final_text step_text out
  = match PyInt.parse start_text 16, PyInt.parse final_text 16,
          PyInt.parse step_text 10 with
    | Some s, Some f, Some p =>
        (out, inr {| start := s; final := f; step := p |})
    | _, _, _ => (out, inl ValueError)
    end.
Proof.
  unfold get, PyInt.int, bind.
  destruct (PyInt.parse start_text 16); [|reflexivity].
  destruct (PyInt.parse final_text 16); [|reflexivity].
  destruct (PyInt.parse step_text 10); reflexivity.
Qed.

Lemma run_after_parse_args (start_text final_text step_text : string) :
  run (after_parse_args start_text final_text step_text)
  = match PyInt.parse start_text 16, PyInt.parse final_text 16,
          PyInt.parse step_text 10 with
    | Some s, Some f, Some p =>
        run (main {| start := s; final := f; step := p |})
    | _, _, _ => {| stdout := []; ended := inl ValueError |}
    end.
Proof.
  unfold run, after_parse_args. unfold bind at 1. rewrite get_outcome.
  destruct (PyInt.parse start_text 16); [|reflexivity].
  destruct (PyInt.parse final_text 16); [|reflexivity].
  destruct (PyInt.parse step_text 10); reflexivity.
Qed.

End CliFacts.

(** ** Further properties: arguments and printed text *)

(** X1: the text [f"{v:08X}"] of any integer [v], negative or wider
    than eight digits included, is read back by [int(text, 16)] as
    [v]. *)
Theorem X1_format_08X_read_back (v : Z) :
  PyInt.parse (PyFormat.format_08X v) 16 = Some v.
Proof. exact (ReadBackFacts.format_08X_parse v). Qed.

(** X2: a value line of a value [0 <= v < 2^32] without its final comma
    is a text that [int(text, 16)] reads as [v] (prefix and underscore
    are part of the syntax), so it can be passed again as [start] or
    [final]; with the comma the line is refused. *)
Theorem X2_value_line_literal (v : Z) :
  0 <= v < 2 ^ 32 ->
  exists literal,
    value_line v = literal ++ "," /\
    PyInt.parse literal 16 = Some v /\
    PyInt.parse (value_line v) 16 = None.
Proof.
  intros Hv.
  pose proof (PyFormatFacts.format_08X_length_narrow v Hv) as Hlen.
  pose proof (PyFormatFacts.parse_format_08X v ltac:(lia)) as Hp.
  destruct (ReadBackFacts.split_literal _ v Hlen Hp) as [Hlit Hline].
  exists ("0x" ++ (PyStr.slice 0 4 (PyFormat.format_08X v) ++ "_"
                   ++ PyStr.slice 4 8 (PyFormat.format_08X v))).
  assert (Heq : value_line v
                = ("0x" ++ (PyStr.slice 0 4 (PyFormat.format_08X v) ++ "_"
                            ++ PyStr.slice 4 8 (PyFormat.format_08X v)))
                  ++ ",").
  { unfold value_line. reflexivity. }
  split; [exact Heq|]. split; [exact Hlit|].
  rewrite Heq. exact Hline.
Qed.

Lemma X2_value_line_literal_witness :
  0 <= 48879 < 2 ^ 32 /\
  exists literal,
    value_line 48879 = literal ++ "," /\
    PyInt.parse literal 16 = Some 48879 /\
    PyInt.parse (value_line 48879) 16 = None.
Proof.
  split; [lia|]. apply (X2_value_line_literal 48879). lia.
Defined.

(** X3: the decimal text [f"{n}"] of an integer of at most
    [max_str_digits] digits is read back by [int(text)] as [n]; the
    count line of a run can so be passed as a [step]. *)
Theorem X3_str_int_read_back (n : Z) :
  Z.abs n < 10 ^ Z.of_nat PyInt.max_str_digits ->
  PyInt.parse (PyFormat.str_int n) 10 = Some n.
Proof. exact (ReadBackFacts.str_int_parse n). Qed.

Lemma X3_str_int_read_back_witness :
  Z.abs (-4096) < 10 ^ Z.of_nat PyInt.max_str_digits /\
  PyInt.parse (PyFormat.str_int (-4096)) 10 = Some (-4096).
Proof.
  assert (H : Z.abs (-4096) < 10 ^ Z.of_nat PyInt.max_str_digits)
    by (vm_compute; reflexivity).
  split; [exact H|]. exact (X3_str_int_read_back (-4096) H).
Defined.

(** X4: [ProgramArguments.get] gives back the three integers whose
    texts it is handed, [start] and [final] written by [f"{v:08X}"] and
    [step] in decimal; nothing is printed while the arguments are
    read. *)
Theorem X4_get_read_back (a : ProgramArguments) (out : list string) :
  Z.abs (step a) < 10 ^ Z.of_nat PyInt.max_str_digits ->
  Cli.get (PyFormat.format_08X (start a)) (PyFormat.format_08X (final a))
          (PyFormat.str_int (step a)) out
  = (out, inr a).
Proof.
  intros Hstep. unfold Cli.get, PyInt.int, bind.
  rewrite !ReadBackFacts.format_08X_parse, (ReadBackFacts.str_int_parse _ Hstep).
  destruct a. reflexivity.
Qed.

Lemma X4_get_read_back_witness :
  let a := {| start := -20; final := 2 ^ 40; step := -3 |} in
  Z.abs (step a) < 10 ^ Z.of_nat PyInt.max_str_digits /\
  Cli.get "-0000014" "10000000000" "-3" [] = ([], inr a).
Proof.
  cbv zeta.
  assert (H : Z.abs (step {| start := -20; final := 2 ^ 40; step := -3 |})
              < 10 ^ Z.of_nat PyInt.max_str_digits)
    by (vm_compute; reflexivity).
  split; [exact H|].
  exact (X4_get_read_back {| start := -20; final := 2 ^ 40; step := -3 |} [] H).
Defined.

(** X5: once [parse_args] has returned the texts of the three
    positional arguments, a failure of the conversions prints nothing.
    Either the three texts are read as integers with a non-zero step,
    and what follows is the run of [main] on them, with at least one
    line printed; or the run ends with [ValueError] and standard output
    is empty. *)
Theorem X5_after_parse_args_all_or_nothing
    (start_text final_text step_text : string) :
  let o := run (Cli.after_parse_args start_text final_text step_text) in
  (exists a,
     PyInt.parse start_text 16 = Some (start a) /\
     PyInt.parse final_text 16 = Some (final a) /\
     PyInt.parse step_text 10 = Some (step a) /\
     step a <> 0 /\
     o = run (main a) /\ stdout o <> [])
  \/ (ended o = inl ValueError /\ stdout o = []).
Proof.
  cbv zeta. rewrite CliFacts.run_after_parse_args.
  destruct (PyInt.parse start_text 16) as [s|];
    [|right; split; reflexivity].
  destruct (PyInt.parse final_text 16) as [f|];
    [|right; split; reflexivity].
  destruct (PyInt.parse step_text 10) as [p|];
    [|right; split; reflexivity].
  set (a := {| start := s; final := f; step := p |}).
  destruct (Z.eq_dec p 0) as [Hz|Hnz].
  - right. rewrite (GeneratorFacts.run_main_zero_step a Hz).
    split; reflexivity.
  - left. exists a.
    repeat (split; [reflexivity|]).
    split; [exact Hnz|]. split; [reflexivity|].
    destruct (Z_le_gt_dec (PyRange.len (array_range a)) PyRange.sys_maxsize)
      as [Hmax|Hmax].
    + rewrite (GeneratorFacts.run_main a Hnz Hmax). cbn [stdout].
      intros E. apply app_eq_nil in E. destruct E as [_ E]. discriminate E.
    + assert (Hover : PyRange.sys_maxsize < PyRange.len (array_range a))
        by lia.
      rewrite (GeneratorFacts.run_main_overflow a Hnz Hover). cbn [stdout].
      destruct (PyRangeFacts.values_end (array_range a)) as [front Hfront].
      { apply (Z.le_lt_trans _ PyRange.sys_maxsize); [discriminate|exact Hover]. }
      rewrite Hfront, map_app. cbn [map].
      intros E. apply app_eq_nil in E. destruct E as [_ E]. discriminate E.
Qed.



(** ** Further facts on the sequence and its lines *)

Module SequenceFacts.
Import PyRange.

Lemma iterate_in (n : nat) (cur st v : Z) :
  In v (iterate n cur st) <->
  exists i, 0 <= i < Z.of_nat n /\ v = cur + i * st.
Proof.
  induction n as [|n IH].
  - simpl. split; [tauto|]. intros (i & Hi & _). lia.
  - rewrite PyRangeFacts.iterate_snoc, in_app_iff, IH. simpl. split.
    + intros [(i & Hi & Hv)|[Hv|[]]].
      * exists i. split; [lia|assumption].
      * exists (Z.of_nat n). split; [lia|now symmetry].
    + intros (i & Hi & Hv).
      destruct (Z.eq_dec i (Z.of_nat n)) as [->|Hne].
      * right. left. now symmetry.
      * left. exists i. split; [lia|assumption].
Qed.

(** A range of [n + 1] values: the first [n], then the last. *)
Lemma values_snoc (r : range) :
  0 < len r ->
  values r
  = (iterate (Z.to_nat (len r - 1)) (start r) (step r)
     ++ [start r + (len r - 1) * step r])%list.
Proof.
  intros Hlen. unfold values.
  replace (Z.to_nat (len r)) with (S (Z.to_nat (len r - 1))) by lia.
  rewrite PyRangeFacts.iterate_snoc, Z2Nat.id by lia. reflexivity.
Qed.

(** With a non-zero step the values of a range are pairwise distinct. *)
Lemma iterate_NoDup (n : nat) (cur st : Z) :
  st <> 0 -> NoDup (iterate n cur st).
Proof.
  intros Hst. apply NoDup_nth_error. intros i j Hi Hij.
  rewrite PyRangeFacts.iterate_length in Hi.
  rewrite (PyRangeFacts.iterate_nth n i cur st Hi) in Hij.
  destruct (Nat.lt_ge_cases j n) as [Hj|Hj].
  - rewrite (PyRangeFacts.iterate_nth n j cur st Hj) in Hij.
    injection Hij as Hij. nia.
  - assert (Hnone : nth_error (iterate n cur st) j = None).
    { apply nth_error_None. now rewrite PyRangeFacts.iterate_length. }
    rewrite Hnone in Hij. discriminate.
Qed.

End SequenceFacts.

Module LineFacts.
Import PyStr PyStrFacts PyFormat PyFormatFacts Generator.

(** The formatted text has at least eight characters, sign included. *)
Lemma format_08X_length_any (v : Z) : (8 <= length (format_08X v))%nat.
Proof.
  destruct (Z_lt_le_dec v 0) as [Hneg|Hpos].
  - unfold format_08X.
    replace (v <? 0) with true by (symmetry; apply Z.ltb_lt; lia).
    cbn [length]. rewrite length_zero_pad. lia.
  - now apply format_08X_length.
Qed.

Lemma split_length (s : string) :
  (8 <= length s)%nat ->
  length ("0x" ++ (slice 0 4 s ++ "_" ++ slice 4 8 s) ++ ",") = 12%nat.
Proof.
  intros Hlen.
  destruct (ValueLineFacts.first_eight s Hlen)
    as (c1 & c2 & c3 & c4 & c5 & c6 & c7 & c8 & rest & ->).
  destruct rest; reflexivity.
Qed.

(** From nine digits on, the last digit does not reach the line. *)
Lemma value_line_drop_digit (v : Z) :
  2 ^ 32 <= v -> value_line v = value_line (v / 16).
Proof.
  intros Hv.
  assert (Hq : 2 ^ 28 <= v / 16) by (apply Z.div_le_lower_bound; lia).
  pose proof (digits_length_ge 16 ltac:(lia) 7 (v / 16)) as Hge.
  change (16 ^ Z.of_nat 7) with (2 ^ 28) in Hge. specialize (Hge Hq).
  unfold value_line, format_08X.
  replace (v <? 0) with false by (symmetry; apply Z.ltb_ge; lia).
  replace (v / 16 <? 0) with false by (symmetry; apply Z.ltb_ge; lia).
  rewrite (digits_step 16) by lia.
  rewrite (zero_pad_wide 8 (digits 16 (v / 16))) by lia.
  rewrite zero_pad_wide by (rewrite length_append; lia).
  unfold slice.
  rewrite !substring_append_l by (simpl; lia).
  reflexivity.
Qed.

(** The line of a wide value is the line of its eight leading digits. *)
Lemma value_line_leading (m : nat) (v : Z) :
  2 ^ 32 <= v < 2 ^ (32 + 4 * Z.of_nat m) ->
  exists k, 0 < k /\ 2 ^ 28 <= v / 16 ^ k < 2 ^ 32 /\
            value_line v = value_line (v / 16 ^ k).
Proof.
  revert v; induction m as [|m IH]; intros v Hv.
  - change (32 + 4 * Z.of_nat 0) with 32 in Hv. lia.
  - assert (Hq : 2 ^ 28 <= v / 16) by (apply Z.div_le_lower_bound; lia).
    destruct (Z_lt_le_dec (v / 16) (2 ^ 32)) as [Hlt|Hge].
    + exists 1. rewrite Z.pow_1_r.
      split; [lia|]. split; [lia|]. apply value_line_drop_digit; lia.
    + destruct (IH (v / 16)) as (k & Hk & Hb & Hl).
      { split; [assumption|]. apply Z.div_lt_upper_bound; [lia|].
        replace (32 + 4 * Z.of_nat (S m))
          with (4 + (32 + 4 * Z.of_nat m)) in Hv by lia.
        rewrite Z.pow_add_r in Hv by lia.
        change (2 ^ 4) with 16 in Hv. lia. }
      exists (k + 1).
      assert (Hdiv : v / 16 ^ (k + 1) = v / 16 / 16 ^ k).
      { rewrite Z.pow_add_r, Z.pow_1_r, Z.mul_comm by lia.
        rewrite Z.div_div by (try apply Z.pow_pos_nonneg; lia).
        reflexivity. }
      rewrite Hdiv. split; [lia|]. split; [assumption|].
      rewrite (value_line_drop_digit v) by lia. exact Hl.
Qed.

End LineFacts.

(** ** Further properties: the sequence and its lines *)

(** X7: for every non-zero step, of either sign and whatever the order
    of [start] and [final], a run over a range that [len] can measure
    ends normally with exit status 0; its output is the value lines
    followed by the count line, and [int] reads the count line back as
    the number of value lines. *)
Theorem X7_nonzero_step_run (a : ProgramArguments) :
  step a <> 0 ->
  PyRange.len (array_range a) <= PyRange.sys_maxsize ->
  let o := run (main a) in
  ended o = inr tt /\ exit_status o = 0 /\
  stdout o = (value_lines o ++ [count_line o])%list /\
  PyInt.parse (count_line o) 10
  = Some (Z.of_nat (List.length (value_lines o))).
Proof.
  intros Hnz Hmax. cbv zeta.
  rewrite (GeneratorFacts.value_lines_count a Hnz).
  rewrite (GeneratorFacts.count_line_main a Hnz Hmax).
  rewrite (GeneratorFacts.value_lines_main a Hnz).
  rewrite (GeneratorFacts.run_main a Hnz Hmax). cbn [stdout ended].
  repeat split.
  apply ReadBackFacts.str_int_parse.
  pose proof (PyRangeFacts.len_nonneg (array_range a)) as Hpos.
  rewrite Z.abs_eq by exact Hpos.
  apply (Z.le_lt_trans _ _ _ Hmax). vm_compute. reflexivity.
Qed.

Lemma X7_nonzero_step_run_witness :
  let a := {| start := 64; final := 0; step := -16 |} in
  step a <> 0 /\
  PyRange.len (array_range a) <= PyRange.sys_maxsize /\
  stdout (run (main a))
  = (value_lines (run (main a)) ++ [count_line (run (main a))])%list /\
  PyInt.parse (count_line (run (main a))) 10 = Some 5.
Proof.
  cbv zeta.
  assert (H1 : step {| start := 64; final := 0; step := -16 |} <> 0)
    by (cbn; lia).
  assert (H2 : PyRange.len
                 (array_range {| start := 64; final := 0; step := -16 |})
               <= PyRange.sys_maxsize) by (vm_compute; discriminate).
  destruct (X7_nonzero_step_run _ H1 H2) as (_ & _ & Hout & Hcount).
  split; [exact H1|]. split; [exact H2|]. split; [exact Hout|exact Hcount].
Defined.

(** X8: the value lines follow the arithmetic progression: for every
    non-zero step, the line at position [i] is the line of
    [start + i * step]. *)
Theorem X8_line_of_position (a : ProgramArguments) (i : nat) :
  step a <> 0 ->
  (i < List.length (value_lines (run (main a))))%nat ->
  nth_error (value_lines (run (main a))) i
  = Some (value_line (start a + Z.of_nat i * step a)).
Proof.
  intros Hnz Hi.
  rewrite (GeneratorFacts.value_lines_main a Hnz) in *.
  rewrite length_map in Hi. unfold PyRange.values in *.
  rewrite PyRangeFacts.iterate_length in Hi.
  rewrite nth_error_map, (PyRangeFacts.iterate_nth _ i _ _ Hi).
  reflexivity.
Qed.

Lemma X8_line_of_position_witness :
  let a := {| start := 4096; final := 0; step := -1024 |} in
  step a <> 0 /\
  (3 < List.length (value_lines (run (main a))))%nat /\
  nth_error (value_lines (run (main a))) 3 = Some (value_line 1024).
Proof.
  cbv zeta. split; [cbn; lia|]. split; [vm_compute; lia|].
  apply (X8_line_of_position
           {| start := 4096; final := 0; step := -1024 |} 3);
    [cbn; lia|vm_compute; lia].
Defined.

(** X9: counting up ([start <= final], positive step), the sequence
    runs through values of [start .. final - 1] and ends with exactly
    one value at or beyond [final], less than one step beyond it. *)
Theorem X9_upward_bounds (a : ProgramArguments) :
  start a <= final a -> 0 < step a ->
  exists front last,
    PyRange.values (array_range a) = (front ++ [last])%list /\
    Forall (fun v => start a <= v < final a) front /\
    final a <= last < final a + step a.
Proof.
  intros Hle Hs.
  set (r := array_range a).
  assert (Hlen : PyRange.len r
                 = (final a + step a - start a - 1) / step a + 1)
    by (apply PyRangeFacts.len_up; cbn; lia).
  pose proof (Z.div_mod (final a + step a - start a - 1) (step a)
                ltac:(lia)) as Hdm.
  pose proof (Z.mod_pos_bound (final a + step a - start a - 1) (step a) Hs)
    as Hmb.
  assert (Hq : 0 <= (final a + step a - start a - 1) / step a)
    by (apply Z.div_pos; lia).
  exists (PyRange.iterate (Z.to_nat (PyRange.len r - 1))
            (PyRange.start r) (PyRange.step r)),
         (PyRange.start r + (PyRange.len r - 1) * PyRange.step r).
  split; [apply SequenceFacts.values_snoc; lia|].
  rewrite Hlen. cbn [r array_range PyRange.start PyRange.step].
  split.
  - apply Forall_forall. intros v Hv.
    apply SequenceFacts.iterate_in in Hv. destruct Hv as (i & Hi & ->).
    rewrite Z2Nat.id in Hi by lia. nia.
  - nia.
Qed.

Lemma X9_upward_bounds_witness :
  let a := {| start := 0; final := 5; step := 2 |} in
  start a <= final a /\ 0 < step a /\
  exists front last,
    PyRange.values (array_range a) = (front ++ [last])%list /\
    Forall (fun v => start a <= v < final a) front /\
    final a <= last < final a + step a.
Proof.
  cbv zeta. split; [cbn; lia|]. split; [cbn; lia|].
  apply (X9_upward_bounds {| start := 0; final := 5; step := 2 |});
    cbn; lia.
Defined.

(** X10: counting down ([final <= start], negative step), the
    sequence runs through values of [final + 1 .. start] and ends with
    exactly one value at or below [final], less than one step below
    it. *)
Theorem X10_downward_bounds (a : ProgramArguments) :
  final a <= start a -> step a < 0 ->
  exists front last,
    PyRange.values (array_range a) = (front ++ [last])%list /\
    Forall (fun v => final a < v <= start a) front /\
    final a + step a < last <= final a.
Proof.
  intros Hle Hs.
  set (r := array_range a).
  assert (Hlen : PyRange.len r
                 = (start a - (final a + step a) - 1) / (- step a) + 1)
    by (apply PyRangeFacts.len_down; cbn; lia).
  pose proof (Z.div_mod (start a - (final a + step a) - 1) (- step a)
                ltac:(lia)) as Hdm.
  pose proof (Z.mod_pos_bound (start a - (final a + step a) - 1) (- step a)
                ltac:(lia)) as Hmb.
  assert (Hq : 0 <= (start a - (final a + step a) - 1) / (- step a))
    by (apply Z.div_pos; lia).
  exists (PyRange.iterate (Z.to_nat (PyRange.len r - 1))
            (PyRange.start r) (PyRange.step r)),
         (PyRange.start r + (PyRange.len r - 1) * PyRange.step r).
  split; [apply SequenceFacts.values_snoc; lia|].
  rewrite Hlen. cbn [r array_range PyRange.start PyRange.step].
  split.
  - apply Forall_forall. intros v Hv.
    apply SequenceFacts.iterate_in in Hv. destruct Hv as (i & Hi & ->).
    rewrite Z2Nat.id in Hi by lia. nia.
  - nia.
Qed.

Lemma X10_downward_bounds_witness :
  let a := {| start := 5; final := 0; step := -2 |} in
  final a <= start a /\ step a < 0 /\
  exists front last,
    PyRange.values (array_range a) = (front ++ [last])%list /\
    Forall (fun v => final a < v <= start a) front /\
    final a + step a < last <= final a.
Proof.
  cbv zeta. split; [cbn; lia|]. split; [cbn; lia|].
  apply (X10_downward_bounds {| start := 5; final := 0; step := -2 |});
    cbn; lia.
Defined.

(** X11: counting down ([final <= start], negative step), the number
    of value lines is [floor((start - final) / -step) + 1] when the
    step divides the distance, and one more otherwise. *)
Theorem X11_downward_count (a : ProgramArguments) :
  final a <= start a -> step a < 0 ->
  Z.of_nat (List.length (value_lines (run (main a))))
  = (start a - final a) / (- step a) + 1
    + (if (start a - final a) mod (- step a) =? 0 then 0 else 1).
Proof.
  intros Hle Hs.
  rewrite GeneratorFacts.value_lines_count by lia.
  rewrite PyRangeFacts.len_down by (cbn; lia). cbn.
  replace (start a - (final a + step a) - 1)
    with ((start a - final a) + (- step a) - 1) by lia.
  rewrite (GeneratorFacts.div_round_up _ (- step a)) by lia. lia.
Qed.

Lemma X11_downward_count_witness :
  let a := {| start := 20; final := 3; step := -4 |} in
  final a <= start a /\ step a < 0 /\
  Z.of_nat (List.length (value_lines (run (main a)))) = 6.
Proof.
  cbv zeta. split; [cbn; lia|]. split; [cbn; lia|].
  apply (X11_downward_count {| start := 20; final := 3; step := -4 |});
    cbn; lia.
Defined.

(** X12: for a non-zero step, the output is the single line [0]
    exactly when [start] already lies at or beyond [final + step] in
    the direction of the step. *)
Theorem X12_empty_output_iff (a : ProgramArguments) :
  step a <> 0 ->
  (stdout (run (main a)) = ["0"] <->
   (0 < step a /\ final a + step a <= start a) \/
   (step a < 0 /\ start a <= final a + step a)).
Proof.
  intros Hnz.
  set (r := array_range a).
  assert (Hempty : PyRange.len r = 0 -> stdout (run (main a)) = ["0"]).
  { intros E.
    rewrite (GeneratorFacts.run_main a Hnz) by (fold r; rewrite E; discriminate).
    fold r. cbn [stdout]. unfold PyRange.values. rewrite E. reflexivity. }
  assert (Hsome : 0 < PyRange.len r -> stdout (run (main a)) <> ["0"]).
  { intros Hpos E. apply (f_equal (@List.length string)) in E.
    pose proof (PyRangeFacts.values_length r) as Hvl.
    destruct (Z_le_gt_dec (PyRange.len r) PyRange.sys_maxsize) as [Hmax|Hmax].
    - rewrite (GeneratorFacts.run_main a Hnz Hmax) in E. fold r in E.
      cbn [stdout] in E.
      rewrite length_app, length_map in E. cbn [List.length] in E. lia.
    - assert (Hover : PyRange.sys_maxsize < PyRange.len r) by lia.
      rewrite (GeneratorFacts.run_main_overflow a Hnz Hover) in E.
      fold r in E. cbn [stdout] in E.
      rewrite length_map in E. cbn [List.length] in E.
      assert (H1 : 1 <= PyRange.sys_maxsize) by (vm_compute; discriminate).
      lia. }
  destruct (Z_lt_le_dec 0 (step a)) as [Hs|Hs].
  - destruct (Z_lt_le_dec (start a) (final a + step a)) as [Hlt|Hge].
    + split; [|lia]. intros E. exfalso. apply Hsome; [|exact E].
      rewrite PyRangeFacts.len_up by (cbn; lia).
      assert (0 <= (PyRange.stop r - PyRange.start r - 1) / PyRange.step r)
        by (apply Z.div_pos; cbn; lia).
      lia.
    + split; [intros _; left; lia|]. intros _. apply Hempty.
      apply PyRangeFacts.len_empty_up; cbn; lia.
  - assert (Hneg : step a < 0) by lia.
    destruct (Z_lt_le_dec (final a + step a) (start a)) as [Hlt|Hge].
    + split; [|lia]. intros E. exfalso. apply Hsome; [|exact E].
      rewrite PyRangeFacts.len_down by (cbn; lia).
      assert (0 <= (PyRange.start r - PyRange.stop r - 1) / - PyRange.step r)
        by (apply Z.div_pos; cbn; lia).
      lia.
    + split; [intros _; right; lia|]. intros _. apply Hempty.
      apply PyRangeFacts.len_empty_down; cbn; lia.
Qed.

Lemma X12_empty_output_iff_witness :
  let a := {| start := 0; final := 32; step := -16 |} in
  step a <> 0 /\ stdout (run (main a)) = ["0"].
Proof.
  cbv zeta. split; [cbn; lia|].
  apply (X12_empty_output_iff {| start := 0; final := 32; step := -16 |});
    [cbn; lia|right; cbn; lia].
Defined.

(** X13: every value line has exactly twelve characters, whatever the
    value: a sign or a ninth digit does not lengthen the line. *)
Theorem X13_value_line_length (v : Z) :
  length (value_line v) = 12%nat.
Proof.
  unfold value_line.
  apply LineFacts.split_length, LineFacts.format_08X_length_any.
Qed.

(** X14: on [0 <= v < 2^32] the value line determines the value: it
    shows [v], so two different values never print the same line. *)
Theorem X14_value_line_injective (v w : Z) :
  0 <= v < 2 ^ 32 -> 0 <= w < 2 ^ 32 ->
  shown_value (value_line v) = Some v /\
  (value_line v = value_line w -> v = w).
Proof.
  intros Hv Hw.
  pose proof (ValueLineFacts.shown_value_narrow v Hv) as Sv.
  pose proof (ValueLineFacts.shown_value_narrow w Hw) as Sw.
  split; [exact Sv|].
  intros E. rewrite E in Sv. congruence.
Qed.

Lemma X14_value_line_injective_witness :
  0 <= 255 < 2 ^ 32 /\ 0 <= 4080 < 2 ^ 32 /\
  shown_value (value_line 255) = Some 255.
Proof.
  split; [lia|]. split; [lia|].
  apply (X14_value_line_injective 255 4080); lia.
Defined.

(** X15: a value [v >= 2^32], of any width, is printed as its eight
    leading hexadecimal digits: its line is the line of [v // 16^k] for
    the [k > 0] that brings it into eight digits, and that quotient is
    what the line shows. *)
Theorem X15_wide_value_leading_digits (v : Z) :
  2 ^ 32 <= v ->
  exists k,
    0 < k /\ 2 ^ 28 <= v / 16 ^ k < 2 ^ 32 /\
    value_line v = value_line (v / 16 ^ k) /\
    shown_value (value_line v) = Some (v / 16 ^ k).
Proof.
  intros Hv.
  destruct (LineFacts.value_line_leading (Z.to_nat (Z.log2 v)) v)
    as (k & Hk & Hb & Hl).
  { split; [exact Hv|].
    rewrite Z2Nat.id by apply Z.log2_nonneg.
    apply (Z.lt_le_trans _ (2 ^ Z.succ (Z.log2 v))).
    - apply Z.log2_spec. lia.
    - apply Z.pow_le_mono_r; [lia|].
      pose proof (Z.log2_nonneg v). lia. }
  exists k. split; [exact Hk|]. split; [exact Hb|]. split; [exact Hl|].
  rewrite Hl. apply ValueLineFacts.shown_value_narrow. lia.
Qed.

Lemma X15_wide_value_leading_digits_witness :
  2 ^ 32 <= 2 ^ 48 + 5 /\
  exists k,
    0 < k /\ 2 ^ 28 <= (2 ^ 48 + 5) / 16 ^ k < 2 ^ 32 /\
    value_line (2 ^ 48 + 5) = value_line ((2 ^ 48 + 5) / 16 ^ k) /\
    shown_value (value_line (2 ^ 48 + 5)) = Some ((2 ^ 48 + 5) / 16 ^ k).
Proof.
  split; [lia|]. apply (X15_wide_value_leading_digits (2 ^ 48 + 5)). lia.
Defined.

(** X16: with a non-zero step, a run whose values all lie in
    [0 .. 2^32 - 1] prints no value line twice. *)
Theorem X16_value_lines_distinct (a : ProgramArguments) :
  step a <> 0 ->
  Forall (fun v => 0 <= v < 2 ^ 32) (PyRange.values (array_range a)) ->
  NoDup (value_lines (run (main a))).
Proof.
  intros Hnz Hall. rewrite (GeneratorFacts.value_lines_main a Hnz).
  assert (Hnd : NoDup (PyRange.values (array_range a)))
    by (apply SequenceFacts.iterate_NoDup; exact Hnz).
  induction Hnd as [|v vs Hnotin Hnd IH]; [constructor|].
  apply Forall_cons_iff in Hall. destruct Hall as [Hv Hvs].
  cbn [map]. constructor; [|now apply IH].
  intros Hin. apply in_map_iff in Hin. destruct Hin as (w & Hw & Hwin).
  apply Hnotin.
  assert (Hwb : 0 <= w < 2 ^ 32) by (rewrite Forall_forall in Hvs; auto).
  pose proof (ValueLineFacts.shown_value_narrow v Hv) as Sv.
  pose proof (ValueLineFacts.shown_value_narrow w Hwb) as Sw.
  rewrite Hw in Sw.
  assert (w = v) by congruence. now subst.
Qed.

Lemma X16_value_lines_distinct_witness :
  let a := {| start := 0; final := 64; step := 16 |} in
  step a <> 0 /\
  Forall (fun v => 0 <= v < 2 ^ 32) (PyRange.values (array_range a)) /\
  NoDup (value_lines (run (main a))).
Proof.
  cbv zeta.
  assert (H1 : step {| start := 0; final := 64; step := 16 |} <> 0)
    by (cbn; lia).
  assert (H2 : Forall (fun v => 0 <= v < 2 ^ 32)
                 (PyRange.values
                    (array_range {| start := 0; final := 64; step := 16 |}))).
  { change (PyRange.values
              (array_range {| start := 0; final := 64; step := 16 |}))
      with [0; 16; 32; 48; 64].
    repeat constructor; lia. }
  split; [exact H1|]. split; [exact H2|].
  exact (X16_value_lines_distinct _ H1 H2).
Defined.

(** ** Further facts on the lister *)

Module ListerMoreFacts.
Import PyStr PyStrFacts Lister.

(** A slice from the start is a prefix. *)
Lemma substring_is_prefix (i : nat) (s : string) :
  exists rest, s = substring 0 i s ++ rest.
Proof.
  revert i; induction s as [|c s IH]; intros i.
  - exists "". now destruct i.
  - destruct i as [|i].
    + exists (String c s). reflexivity.
    + destruct (IH i) as [rest Hrest]. exists rest.
      cbn [substring append]. now rewrite <- Hrest.
Qed.

Lemma substring_nonempty (i : nat) (s : string) :
  (0 < i)%nat -> s <> "" -> substring 0 i s <> "".
Proof.
  intros Hi Hs. destruct s as [|c s]; [congruence|].
  destruct i as [|i]; [lia|]. discriminate.
Qed.

(** The lines of a directory depend on the names of its entries only. *)
Lemma entry_lines_names (es1 es2 : list dir_entry) (index : Z) :
  map name es1 = map name es2 ->
  map entry_line (enumerate_from index es1)
  = map entry_line (enumerate_from index es2).
Proof.
  revert es2 index; induction es1 as [|e1 es1 IH]; intros es2 index Hnames.
  - destruct es2; [reflexivity|discriminate].
  - destruct es2 as [|e2 es2]; [discriminate|].
    cbn [map] in Hnames. injection Hnames as Hname Hrest.
    cbn [enumerate_from map]. f_equal.
    + unfold entry_line. cbn [fst snd]. now rewrite Hname.
    + now apply IH.
Qed.

End ListerMoreFacts.

(** ** Further properties: the lister *)

(** X17: the name printed for an entry is a prefix of the entry's
    name, and it is not empty unless the name is: the lister never
    prints a blank name for a named entry. *)
Theorem X17_stem_prefix (name : string) :
  name <> "" ->
  Lister.stem name <> "" /\
  exists rest, name = Lister.stem name ++ rest.
Proof.
  intros Hne. unfold Lister.stem.
  destruct (PyStr.rfind "." name) as [i|].
  - destruct (0 <? i)%nat eqn:Hi; cbn [andb].
    + destruct (i <? length name - 1)%nat.
      * unfold PyStr.slice. split.
        -- apply ListerMoreFacts.substring_nonempty; [|exact Hne].
           apply Nat.ltb_lt in Hi. lia.
        -- apply ListerMoreFacts.substring_is_prefix.
      * split; [exact Hne|]. exists "".
        now rewrite PyStrFacts.append_empty_r.
    + split; [exact Hne|]. exists "".
      now rewrite PyStrFacts.append_empty_r.
  - split; [exact Hne|]. exists "".
    now rewrite PyStrFacts.append_empty_r.
Qed.

Lemma X17_stem_prefix_witness :
  "archive.tar.gz" <> "" /\
  Lister.stem "archive.tar.gz" <> "" /\
  exists rest, "archive.tar.gz" = Lister.stem "archive.tar.gz" ++ rest.
Proof.
  split; [discriminate|].
  apply (X17_stem_prefix "archive.tar.gz"). discriminate.
Defined.

(** X18: the exit status of the lister tells whether [examples/] is a
    directory: 0 when it is, 1 when it is missing or something else;
    and the first line printed is a diagnostic only in the second
    case. *)
Theorem X18_lister_exit_status (env : Lister.environment) :
  exit_status (run (Lister.main env))
  = (if Lister.path_is_dir env then 0 else 1) /\
  (Lister.path_is_dir env = true ->
   stdout (run (Lister.main env))
   = map Lister.entry_line (Lister.enumerate (Lister.iterdir env))).
Proof.
  unfold Lister.path_is_dir, Lister.iterdir.
  destruct (Lister.examples env) as [| |entries] eqn:Hnode.
  - rewrite (ListerFacts.run_main_absent env Hnode).
    split; [reflexivity|discriminate].
  - rewrite (ListerFacts.run_main_regular_file env Hnode).
    split; [reflexivity|discriminate].
  - rewrite (ListerFacts.run_main_directory env entries Hnode).
    split; reflexivity.
Qed.

(** X19: the lister never looks at what kind of entry it prints, nor
    at the working directory once [examples/] is a directory: two
    directories whose entries have the same names in the same order
    give the same run. *)
Theorem X19_lister_names_only (env1 env2 : Lister.environment)
    (es1 es2 : list Lister.dir_entry) :
  Lister.examples env1 = Lister.Directory es1 ->
  Lister.examples env2 = Lister.Directory es2 ->
  map Lister.name es1 = map Lister.name es2 ->
  run (Lister.main env1) = run (Lister.main env2).
Proof.
  intros H1 H2 Hnames.
  rewrite (ListerFacts.run_main_directory env1 es1 H1).
  rewrite (ListerFacts.run_main_directory env2 es2 H2).
  unfold Lister.enumerate.
  now rewrite (ListerMoreFacts.entry_lines_names es1 es2 0 Hnames).
Qed.

Lemma X19_lister_names_only_witness :
  let file := {| Lister.name := "uart.rs"; Lister.is_directory := false |} in
  let dir := {| Lister.name := "uart.rs"; Lister.is_directory := true |} in
  let env1 := {| Lister.cwd := "/a"; Lister.examples := Lister.Directory [file] |} in
  let env2 := {| Lister.cwd := "/b"; Lister.examples := Lister.Directory [dir] |} in
  map Lister.name [file] = map Lister.name [dir] /\
  run (Lister.main env1) = run (Lister.main env2).
Proof.
  cbv zeta. split; [reflexivity|].
  apply (X19_lister_names_only _ _
           [{| Lister.name := "uart.rs"; Lister.is_directory := false |}]
           [{| Lister.name := "uart.rs"; Lister.is_directory := true |}]);
    reflexivity.
Defined.
